(** * Prompt templates: value formatting, partial binding, validation

    A shallow embedding of [langchain/schema/prompt_template.py]:
    the formatter registry dispatch ([_format_value], [_apply_formatter]),
    the [BasePromptTemplate] methods [validate_variable_names], [partial],
    [_prepare_variables], [dict], [save], and the helper [format_document].

    Conventions of the embedding.
    - A Python [dict] is insertion ordered: it is an association list whose
      keys are pairwise distinct ([odict]); [d[k] = v] keeps the position of
      an existing key and appends a new one.
    - A Python [set] of names is a [gset string]; the order in which a set is
      iterated is not determined by the program, it is the method [set_iter]
      of the class [SetOrder] (any enumeration of the elements).
    - Callables supplied by the user (formatters, partial-variable producers,
      the concrete [format]) may raise and may act on the outside world: they
      live in the monad [M] of state over an abstract [World] and exceptions.
    - [partial] copies the instance dictionary and assigns into the copy; it
      is embedded over a store of objects so that the copy is visible.
    - [super().dict()], the serialisation inherited from the base classes,
      is code outside the file: it is the method [super_dict] of the class
      [Serializable], and it may raise. *)

From Stdlib Require Import Ascii.
From stdpp Require Import gmap strings list sets fin_sets.

Set Default Proof Using "Type".
Open Scope string_scope.
Open Scope list_scope.

(** ** Ordered dictionaries *)

Module OD.
Section odict.
Context {K V : Type} `{EqDecision K}.

Definition odict := list (K * V).

Definition keys (d : list (K * V)) : list K := d.*1.

(** [d.get(k)]: the entry stored under [k]. *)
Fixpoint get (k : K) (d : list (K * V)) : option V :=
  match d with
  | [] => None
  | (k', v) :: rest => if decide (k = k') then Some v else get k rest
  end.

(** [k in d] *)
Definition mem (k : K) (d : list (K * V)) : bool :=
  match get k d with Some _ => true | None => false end.

(** [d[k] = v]: an existing key keeps its position, a new key goes last. *)
Fixpoint set (k : K) (v : V) (d : list (K * V)) : list (K * V) :=
  match d with
  | [] => [(k, v)]
  | (k', v') :: rest =>
      if decide (k = k') then (k, v) :: rest else (k', v') :: set k v rest
  end.

(** [del d[k]] *)
Fixpoint del (k : K) (d : list (K * V)) : list (K * V) :=
  match d with
  | [] => []
  | (k', v') :: rest =>
      if decide (k = k') then rest else (k', v') :: del k rest
  end.

(** [{**d1, **d2}]: the entries of [d1], overlaid by those of [d2] taken
    in order. *)
Definition update (d1 d2 : list (K * V)) : list (K * V) :=
  foldl (fun acc kv => set kv.1 kv.2 acc) d1 d2.

(** The dictionary invariant: no key occurs twice. *)
Definition wf (d : list (K * V)) : Prop := NoDup (keys d).
End odict.
Global Arguments odict : clear implicits.
End OD.

Abbreviation odict := OD.odict.

(** ** Exceptions and messages *)

(** The pieces an f-string message is built from. [ReprSet] and [ReprList]
    stand for the [repr] of a set, respectively a list, of names, in the
    order given. *)
Inductive fragment :=
  | Lit (s : string)
  | ReprSet (names : list string)
  | ReprList (names : list string)
  | ReprCallable (name : string)
  | FmtNat (n : nat)
  | FmtPath (p : string).

Definition message := list fragment.

Inductive exception :=
  | ValueError (msg : message)
  | TypeError (msg : string)
  | AttributeError (attr : string)
  | KeyError (key : string)
  | NotImplementedError
  | RecursionError
  | OSError (msg : string)
  | UserError (name msg : string).

Inductive result (A : Type) :=
  | Ok (a : A)
  | Err (e : exception).
Global Arguments Ok {A} a.
Global Arguments Err {A} e.

(** ** The monad of effects: state passing over [W], with exceptions *)

Definition St (W A : Type) : Type := W -> result A * W.

Definition ret {W A} (a : A) : St W A := fun w => (Ok a, w).
Definition raise {W A} (e : exception) : St W A := fun w => (Err e, w).
Definition bind {W A B} (m : St W A) (k : A -> St W B) : St W B :=
  fun w => match m w with
           | (Ok a, w') => k a w'
           | (Err e, w') => (Err e, w')
           end.
Definition lift {W A} (r : result A) : St W A := fun w => (r, w).

Notation "x <- m ;; k" := (bind m (fun x => k))
  (at level 100, m at next level, right associativity,
   format "x  <-  m  ;;  '/' k").

(** [{key(a): val(a) for a in items}], started from the entries [acc]:
    the items are visited in order, the value expression is evaluated, and
    the entry is stored. *)
Fixpoint dict_comp_from {W A K V} `{EqDecision K}
    (key : A -> K) (val : A -> St W V) (items : list A) (acc : odict K V)
    : St W (odict K V) :=
  match items with
  | [] => ret acc
  | a :: rest =>
      v <- val a ;; dict_comp_from key val rest (OD.set (key a) v acc)
  end.

Definition dict_comp {W A K V} `{EqDecision K}
    (key : A -> K) (val : A -> St W V) (items : list A) : St W (odict K V) :=
  dict_comp_from key val items [].

(** [[val(a) for a in items]] *)
Fixpoint list_comp {W A B} (val : A -> St W B) (items : list A)
    : St W (list B) :=
  match items with
  | [] => ret []
  | a :: rest => b <- val a ;; bs <- list_comp val rest ;; ret (b :: bs)
  end.

(** [traverse_values f d]: [f] applied to the value of every entry of [d], in
    order, the keys kept. This is how the specification words a
    comprehension [{k: f(v) for k, v in d.items()}]. *)
Fixpoint traverse_values {W K A B} (f : A -> St W B) (d : odict K A)
    : St W (odict K B) :=
  match d with
  | [] => ret []
  | (k, a) :: rest =>
      b <- f a ;; rest' <- traverse_values f rest ;; ret ((k, b) :: rest')
  end.

(** ** Python types and values *)

(** The classes a value can be an instance of. [TClass name base] is a class
    defined by the application with the single base class [base]; the other
    constructors are the built-in classes and [Document]. *)
Inductive pytype :=
  | TObject
  | TNoneType
  | TInt
  | TBool
  | TStr
  | TList
  | TDict
  | TDocument
  | TClass (name : string) (base : pytype).

Global Instance pytype_eq_dec : EqDecision pytype.
Proof. solve_decision. Defined.

(** [issubclass(t, u)]: [u] is [t] or one of its ancestors. [bool] derives
    from [int], every class from [object]. *)
Fixpoint issubclass (t u : pytype) : bool :=
  if decide (t = u) then true
  else match t with
       | TObject => false
       | TBool => bool_decide (u = TInt) || bool_decide (u = TObject)
       | TClass _ base => issubclass base u
       | _ => bool_decide (u = TObject)
       end.

#[local] Set Warnings "-register-all".

(** The values handed to a template. An instance of an application class
    carries the state it inherits from its built-in ancestor. *)
Inductive pyval :=
  | VNone
  | VBool (b : bool)
  | VInt (n : Z)
  | VStr (s : string)
  | VList (items : list pyval)
  | VDict (items : list (string * pyval))
  | VDocument (page_content : string) (metadata : list (string * pyval))
  | VInstance (name : string) (base : pytype) (state : pyval).

(** [type(value)] *)
Definition type_of (v : pyval) : pytype :=
  match v with
  | VNone => TNoneType
  | VBool _ => TBool
  | VInt _ => TInt
  | VStr _ => TStr
  | VList _ => TList
  | VDict _ => TDict
  | VDocument _ _ => TDocument
  | VInstance name base _ => TClass name base
  end.

(** [isinstance(value, type_)] *)
Definition isinstance (v : pyval) (t : pytype) : bool :=
  issubclass (type_of v) t.

(** The characters of a string, each as a string of length one *)
Fixpoint characters (s : string) : list string :=
  match s with
  | EmptyString => []
  | String c rest => String c EmptyString :: characters rest
  end.

(** What [for e in value] iterates over: the elements of a list, the
    characters of a string, the keys of a dictionary; [None], [bool] and
    [int] values are not iterable. Iterating a [Document], which goes
    through the [__iter__] of its pydantic base class, is not covered: it is
    counted with the values that are not iterable. Instances iterate as
    their inherited state does. *)
Fixpoint list_items (v : pyval) : option (list pyval) :=
  match v with
  | VList items => Some items
  | VStr s => Some (VStr <$> characters s)
  | VDict items => Some ((fun kv => VStr kv.1) <$> items)
  | VInstance _ _ state => list_items state
  | _ => None
  end.

(** The items of a mapping and the [page_content] attribute, through the
    inherited state of instances. *)

Fixpoint dict_items (v : pyval) : option (list (string * pyval)) :=
  match v with
  | VDict items => Some items
  | VInstance _ _ state => dict_items state
  | _ => None
  end.

Fixpoint page_content_of (v : pyval) : option string :=
  match v with
  | VDocument page_content _ => Some page_content
  | VInstance _ _ state => page_content_of state
  | _ => None
  end.

(** ** Iteration order of sets *)

(** Nothing in the program fixes the order in which a [set] of names is
    enumerated ([list(s)], [repr(s)]): it is any enumeration of the
    elements, each once. *)
Class SetOrder := {
  set_iter : gset string -> list string;
  set_iter_perm : forall s, set_iter s ≡ₚ elements s
}.

(** [set(names)] and [set(d)] for a dictionary [d] *)
Definition set_of (names : list string) : gset string := list_to_set names.

(** ** Formatter registry *)

Section formatters.
Context {World : Type}.

Abbreviation M := (St World).

(** [BoundFormatValueCallable] *)
Definition BoundFormatValueCallable := pyval -> M pyval.

(** A formatter is a callable. [fmt_signature] is the number of
    parameters [inspect.signature] reports, [None] when it raises
    [ValueError] (callables implemented in C, such as [attrgetter]);
    [fmt_call1] and [fmt_call2] are what calling it with one, respectively
    two, positional arguments does; [fmt_repr] is its [repr]. *)
Record FormatterType := {
  fmt_repr : string;
  fmt_signature : option nat;
  fmt_call1 : pyval -> M pyval;
  fmt_call2 : pyval -> BoundFormatValueCallable -> M pyval
}.

(** [FormattersType]: [Mapping[type, FormatterType]] *)
Definition FormattersType := odict pytype FormatterType.

(** The body of [_apply_formatter]; [format_value] stands for the global
    [_format_value] the body refers to. *)
Definition _apply_formatter_body
    (format_value : FormattersType -> pyval -> M pyval)
    (formatters : FormattersType) (formatter : FormatterType)
    (value : pyval) : M pyval :=
  let arity := match fmt_signature formatter with
               | Some n => n
               | None => 1
               end in
  if decide (arity = 1) then fmt_call1 formatter value
  else if decide (arity = 2) then
    fmt_call2 formatter value (format_value formatters)
  else raise (ValueError [Lit "Formatter "; ReprCallable (fmt_repr formatter);
                          Lit " has too many arguments ("; FmtNat arity;
                          Lit "), expected 1 or 2."]).

(** What a call of [_format_value] made from inside a formatter does when
    [depth] nested calls are still allowed: the interpreter raises
    [RecursionError] once the limit is reached. *)
Definition nested_call (depth : nat)
    (format_value : nat -> FormattersType -> pyval -> M pyval)
    : FormattersType -> pyval -> M pyval :=
  match depth with
  | O => fun _ _ => raise RecursionError
  | S depth' => format_value depth'
  end.

(** [_format_value]; [depth] bounds the nesting of the calls that
    formatters make through their second argument. *)
Fixpoint _format_value (depth : nat) (formatters : FormattersType)
    (value : pyval) {struct depth} : M pyval :=
  let recurse : FormattersType -> pyval -> M pyval :=
    match depth with
    | O => fun _ _ => raise RecursionError
    | S depth' => _format_value depth'
    end in
  let value_type := type_of value in
  (* First check for exact type match *)
  match OD.get value_type formatters with
  | Some formatter =>
      _apply_formatter_body recurse formatters formatter value
  | None =>
      (* Then check for subclass match *)
      match List.find (fun entry => isinstance value entry.1) formatters with
      | Some (type_, formatter) =>
          _apply_formatter_body recurse formatters formatter value
      | None => ret value
      end
  end.

(** [_apply_formatter] *)
Definition _apply_formatter (depth : nat) (formatters : FormattersType)
    (formatter : FormatterType) (value : pyval) : M pyval :=
  _apply_formatter_body (nested_call depth _format_value)
    formatters formatter value.

(** [partial(_format_value, formatters)], as handed to a formatter. *)
Definition bound_format_value (depth : nat) (formatters : FormattersType)
    : BoundFormatValueCallable :=
  nested_call depth _format_value formatters.

(** [PROMPT_DEFAULT_FORMATTERS] *)
Definition attrgetter_page_content : FormatterType := {|
  fmt_repr := "operator.attrgetter('page_content')";
  fmt_signature := None;
  fmt_call1 := fun obj =>
    match page_content_of obj with
    | Some s => ret (VStr s)
    | None => raise (AttributeError "page_content")
    end;
  fmt_call2 := fun _ _ =>
    raise (TypeError "attrgetter expected 1 argument, got 2")
|}.

Definition format_list : FormatterType := {|
  fmt_repr := "<function <lambda>>";
  fmt_signature := Some 2;
  fmt_call1 := fun _ =>
    raise (TypeError "<lambda>() missing 1 required positional argument");
  fmt_call2 := fun list_value format =>
    match list_items list_value with
    | Some items => out <- list_comp format items ;; ret (VList out)
    | None => raise (TypeError "object is not iterable")
    end
|}.

Definition format_dict : FormatterType := {|
  fmt_repr := "<function <lambda>>";
  fmt_signature := Some 2;
  fmt_call1 := fun _ =>
    raise (TypeError "<lambda>() missing 1 required positional argument");
  fmt_call2 := fun dict_value format =>
    match dict_items dict_value with
    | Some items =>
        out <- dict_comp fst (fun kv => format kv.2) items ;; ret (VDict out)
    | None => raise (AttributeError "items")
    end
|}.

Definition PROMPT_DEFAULT_FORMATTERS : FormattersType :=
  [ (TDocument, attrgetter_page_content);
    (TList, format_list);
    (TDict, format_dict) ].
End formatters.
Global Arguments FormatterType : clear implicits.
Global Arguments FormattersType : clear implicits.
Global Arguments BoundFormatValueCallable : clear implicits.

(** ** Prompt templates *)

(** [BaseOutputParser] is opaque here: a reference that is stored and
    passed on. *)
Inductive BaseOutputParser := OutputParser (ref : string).

(** A partial variable: [Union[str, Callable[[], str]]], a string or a
    producer called without arguments. *)
Inductive partial_variable {World : Type} :=
  | PStr (s : string)
  | PCallable (produce : St World pyval).
Global Arguments partial_variable : clear implicits.

(** A value of the dictionary that [dict()] returns. *)
Inductive field_value {World : Type} :=
  | FFormatters (formatters : FormattersType World)
  | FNames (names : list string)
  | FParser (parser : option BaseOutputParser)
  | FPartials (partials : odict string (partial_variable World))
  | FValue (v : pyval)
  | FType (name : string).
Global Arguments field_value : clear implicits.

(** The operating system and the serialisers, as [save] uses them:
    [Path(p).parent], [Path(p).suffix], [Path.mkdir(parents=True,
    exist_ok=True)], and opening the target for writing and dumping the
    dictionary into it as JSON, respectively YAML. *)
Class OS (World : Type) := {
  path_parent : string -> string;
  path_suffix : string -> string;
  mkdir_parents : string -> St World unit;
  write_json : string -> odict string (field_value World) -> St World unit;
  write_yaml : string -> odict string (field_value World) -> St World unit
}.

Section templates.
Context {World : Type} `{!SetOrder} `{!OS World}.

Abbreviation M := (St World).

(** The instance dictionary ([__dict__]) of a prompt template: the fields
    [BasePromptTemplate] declares, and the fields of the concrete class. *)
Record fields := {
  formatters : FormattersType World;
  input_variables : list string;
  output_parser : option BaseOutputParser;
  partial_variables : odict string (partial_variable World);
  own_fields : odict string pyval
}.

(** A concrete class of prompt templates: its name, its implementation of
    the abstract [format], and its [_prompt_type] (the one inherited from
    [BasePromptTemplate] raises [NotImplementedError]). *)
Record prompt_class := {
  class_name : string;
  class_format : fields -> odict string pyval -> M string;
  class_prompt_type : result string
}.

(** An instance: [type(self)] and [self.__dict__]. *)
Record BasePromptTemplate := {
  type_ : prompt_class;
  dict__ : fields
}.

(** [validate_variable_names], the root validator *)
Definition validate_variable_names (values : fields) : result fields :=
  if bool_decide ("stop" ∈ input_variables values) then
    Err (ValueError
      [Lit ("Cannot have an input variable named 'stop', as it is used internally,"
            +:+ " please rename.")])
  else if OD.mem "stop" (partial_variables values) then
    Err (ValueError
      [Lit ("Cannot have an partial variable named 'stop', as it is used "
            +:+ "internally, please rename.")])
  else
    let overall : gset string :=
      set_of (input_variables values)
        ∩ set_of (OD.keys (partial_variables values)) in
    if bool_decide (overall ≠ ∅) then
      Err (ValueError
        [Lit "Found overlapping input and partial variables: ";
         ReprSet (set_iter overall)])
    else Ok values.

(** [cls] called with the entries of [values]: construction runs the root
    validator and stores the validated values. *)
Definition construct (cls : prompt_class) (values : fields)
    : result BasePromptTemplate :=
  match validate_variable_names values with
  | Ok values' => Ok {| type_ := cls; dict__ := values' |}
  | Err e => Err e
  end.

(** [self._prepare_variables], called with the keyword arguments [kwargs] *)
Definition _prepare_variables (depth : nat) (self : BasePromptTemplate)
    (kwargs : odict string pyval) : M (odict string pyval) :=
  (* Get partial params: *)
  partial_kwargs <-
    dict_comp fst
      (fun kv => match kv.2 with
                 | PStr s => ret (VStr s)
                 | PCallable v => v
                 end)
      (partial_variables (dict__ self)) ;;
  let all_variables := OD.update partial_kwargs kwargs in
  dict_comp fst
    (fun kv => _format_value depth (formatters (dict__ self)) kv.2)
    all_variables.

(** The three steps of variable preparation as the specification words
    them: a partial variable that is a plain string is used as it is, one
    that is a callable is invoked; the supplied mapping is laid over the
    resolved partial variables; every value of the result goes through the
    formatter registry. *)
Definition resolve_partial (v : partial_variable World) : M pyval :=
  match v with
  | PStr s => ret (VStr s)
  | PCallable produce => produce
  end.

Definition prepare_variables_steps (depth : nat) (self : BasePromptTemplate)
    (supplied : odict string pyval) : M (odict string pyval) :=
  resolved <- traverse_values resolve_partial (partial_variables (dict__ self)) ;;
  let merged := OD.update resolved supplied in
  traverse_values (_format_value depth (formatters (dict__ self))) merged.

(** [self.format], the abstract method, called with the keyword arguments [kwargs] *)
Definition format (self : BasePromptTemplate) (kwargs : odict string pyval)
    : M string :=
  class_format (type_ self) (dict__ self) kwargs.

(** [self._prompt_type] *)
Definition _prompt_type (self : BasePromptTemplate) : result string :=
  class_prompt_type (type_ self).

(** [super().dict()] is the serialisation of the pydantic base classes,
    code outside this file. It returns the dictionary of the fields, or
    raises: it serialises the output parser through the parser's own
    [dict()], which raises [NotImplementedError] when the parser class
    defines no [_type]. *)
Class Serializable := {
  super_dict : BasePromptTemplate -> result (odict string (field_value World))
}.
Context `{!Serializable}.

(** [self.dict()], called without keyword arguments as [save] does *)
Definition dict (self : BasePromptTemplate)
    : result (odict string (field_value World)) :=
  match super_dict self with
  | Err e => Err e
  | Ok prompt_dict =>
      if OD.mem "formatters" prompt_dict then
        let prompt_dict := OD.del "formatters" prompt_dict in
        match _prompt_type self with
        | Ok t => Ok (OD.set "_type" (FType t) prompt_dict)
        | Err e => Err e
        end
      else Err (KeyError "formatters")
  end.

(** [self.save(file_path)] *)
Definition save (self : BasePromptTemplate) (file_path : string) : M unit :=
  if bool_decide (partial_variables (dict__ self) ≠ []) then
    raise (ValueError [Lit "Cannot save prompt with partial variables."])
  else
    (* Convert file to Path object. *)
    let save_path := file_path in
    let directory_path := path_parent save_path in
    _ <- mkdir_parents directory_path ;;
    (* Fetch dictionary to save *)
    prompt_dict <- lift (dict self) ;;
    if decide (path_suffix save_path = ".json") then
      write_json file_path prompt_dict
    else if decide (path_suffix save_path = ".yaml") then
      write_yaml file_path prompt_dict
    else raise (ValueError [FmtPath save_path; Lit " must be json or yaml"]).
End templates.
Global Arguments fields : clear implicits.
Global Arguments prompt_class : clear implicits.
Global Arguments BasePromptTemplate : clear implicits.
Global Arguments Serializable : clear implicits.

(** ** The object store, and [partial] *)

(** Objects are referred to by their address. *)
Abbreviation loc := nat (only parsing).

Section store.
Context {World : Type} `{!SetOrder}.

(** An instance refers to its class and to the dictionary object that holds
    its fields. *)
Inductive object :=
  | Instance (cls : prompt_class World) (dict_at : loc)
  | Dict (entries : fields World).

(** The store: the objects allocated so far, each at its index. *)
Local Abbreviation store := (list object).

Abbreviation Sto := (St store).

(** Allocation of a new object, at an address not in use. *)
Definition alloc (o : object) : Sto loc :=
  fun h => (Ok (List.length h), (h ++ [o])%list).

(** [type(self)] *)
Definition type_of_instance (self : loc) : Sto (prompt_class World) :=
  fun h => match h !! self with
           | Some (Instance cls _) => (Ok cls, h)
           | _ => (Err (TypeError "not a prompt template"), h)
           end.

(** [self.__dict__] *)
Definition getattr_dict (self : loc) : Sto loc :=
  fun h => match h !! self with
           | Some (Instance _ d) => (Ok d, h)
           | _ => (Err (AttributeError "__dict__"), h)
           end.

(** The entries of the dictionary at [d] *)
Definition read_dict (d : loc) : Sto (fields World) :=
  fun h => match h !! d with
           | Some (Dict entries) => (Ok entries, h)
           | _ => (Err (TypeError "not a dict"), h)
           end.

(** [self.<field>] *)
Definition getattr {A} (self : loc) (field : fields World -> A) : Sto A :=
  d <- getattr_dict self ;;
  entries <- read_dict d ;;
  ret (field entries).

(** [d.copy()]: a new dictionary with the same entries *)
Definition dict_copy (d : loc) : Sto loc :=
  entries <- read_dict d ;;
  alloc (Dict entries).

(** [d[field] = v], in place *)
Definition setitem (d : loc) (assign : fields World -> fields World)
    : Sto unit :=
  fun h => match h !! d with
           | Some (Dict entries) => (Ok tt, <[d := Dict (assign entries)]> h)
           | _ => (Err (TypeError "object does not support item assignment"), h)
           end.

Definition set_input_variables (v : list string) (entries : fields World)
    : fields World :=
  {| formatters := formatters entries;
     input_variables := v;
     output_parser := output_parser entries;
     partial_variables := partial_variables entries;
     own_fields := own_fields entries |}.

Definition set_partial_variables (v : odict string (partial_variable World))
    (entries : fields World) : fields World :=
  {| formatters := formatters entries;
     input_variables := input_variables entries;
     output_parser := output_parser entries;
     partial_variables := v;
     own_fields := own_fields entries |}.

(** [cls] called with the entries of the dictionary at [kwargs]: the
    validated values go into the dictionary of a new instance. *)
Definition new_instance (cls : prompt_class World) (kwargs : loc) : Sto loc :=
  values <- read_dict kwargs ;;
  self <- lift (construct cls values) ;;
  d <- alloc (Dict (dict__ self)) ;;
  alloc (Instance (type_ self) d).

(** [self.partial], called with the keyword arguments [kwargs] *)
Definition partial (self : loc) (kwargs : odict string (partial_variable World))
    : Sto loc :=
  self_dict <- getattr_dict self ;;
  prompt_dict <- dict_copy self_dict ;;
  self_input_variables <- getattr self input_variables ;;
  _ <- setitem prompt_dict
         (set_input_variables
            (set_iter (set_of self_input_variables ∖ set_of (OD.keys kwargs)))) ;;
  self_partial_variables <- getattr self partial_variables ;;
  _ <- setitem prompt_dict
         (set_partial_variables (OD.update self_partial_variables kwargs)) ;;
  cls <- type_of_instance self ;;
  new_instance cls prompt_dict.

(** The values [partial] hands to the constructor: the entries [e] of the
    instance with the two assignments made. *)
Definition partial_values (e : fields World)
    (kwargs : odict string (partial_variable World)) : fields World :=
  set_partial_variables (OD.update (partial_variables e) kwargs)
    (set_input_variables
       (set_iter (set_of (input_variables e) ∖ set_of (OD.keys kwargs))) e).

(** The template an address holds in a store: its class and the entries
    of its dictionary. *)
Definition load (h : store) (self : loc) : option (BasePromptTemplate World) :=
  match h !! self with
  | Some (Instance cls d) =>
      match h !! d with
      | Some (Dict entries) => Some {| type_ := cls; dict__ := entries |}
      | _ => None
      end
  | _ => None
  end.

(** The address of the dictionary of the instance at [self]. *)
Definition dict_of (h : store) (self : loc) : option loc :=
  match h !! self with
  | Some (Instance _ d) => Some d
  | _ => None
  end.
End store.
Global Arguments object : clear implicits.

Abbreviation store World := (list (object World)).

(** [x] occurs before [y] in the list [names]. *)
Definition precedes (x y : string) (names : list string) : Prop :=
  exists i j, i < j /\ names !! i = Some x /\ names !! j = Some y.

(** The names of a list in the order of their first occurrence, each once
    (the keys of a dictionary built by storing the names in order); [seen]
    are the names met before. *)
Fixpoint first_occurrences_from (seen names : list string) : list string :=
  match names with
  | [] => []
  | x :: rest =>
      if decide (x ∈ seen) then first_occurrences_from seen rest
      else x :: first_occurrences_from (seen ++ [x]) rest
  end.

Definition first_occurrences (names : list string) : list string :=
  first_occurrences_from [] names.

(** ** Documents *)

(** [Document]: the fields [format_document] reads. *)
Record Document := {
  page_content : string;
  metadata : odict string pyval
}.

Section documents.
Context {World : Type} `{!SetOrder}.

(** [format_document(doc, prompt)] *)
Definition format_document (doc : Document)
    (prompt : BasePromptTemplate World) : St World string :=
  let base_info :=
    OD.update [("page_content", VStr (page_content doc))] (metadata doc) in
  let missing_metadata : gset string :=
    set_of (input_variables (dict__ prompt)) ∖ set_of (OD.keys base_info) in
  if decide (0 < size missing_metadata) then
    let required_metadata :=
      filter (fun iv => iv ≠ "page_content")
        (input_variables (dict__ prompt)) in
    raise (ValueError
      [Lit "Document prompt requires documents to have metadata variables: ";
       ReprList required_metadata;
       Lit ". Received document with missing metadata: ";
       ReprList (set_iter missing_metadata);
       Lit "."])
  else
    document_info <-
      dict_comp id
        (fun k => match OD.get k base_info with
                  | Some v => ret v
                  | None => raise (KeyError k)
                  end)
        (input_variables (dict__ prompt)) ;;
    format prompt document_info.
End documents.

(** ** What the default registry computes *)

(** The depth to which containers are nested in a value: the number of
    nested calls of [_format_value] that formatting it with the default
    registry makes below the outermost one. *)
Fixpoint height (v : pyval) : nat :=
  match v with
  | VList items => foldr (fun e acc => Nat.max (S (height e)) acc) 0 items
  | VDict items => foldr (fun kv acc => Nat.max (S (height kv.2)) acc) 0 items
  | _ => 0
  end.

(** Values made of the built-in types and documents only (no instance of
    an application class), their mappings with no key twice. *)
Fixpoint plain (v : pyval) : Prop :=
  match v with
  | VList items => foldr (fun e acc => plain e /\ acc) True items
  | VDict items =>
      NoDup items.*1 /\ foldr (fun kv acc => plain kv.2 /\ acc) True items
  | VInstance _ _ _ => False
  | _ => True
  end.

(** The value the three default formatters describe: a document becomes its
    [page_content], a list is formatted element by element, a mapping value
    by value, anything else is kept. *)
Fixpoint render_default (v : pyval) : pyval :=
  match v with
  | VDocument text _ => VStr text
  | VList items => VList (map render_default items)
  | VDict items => VDict (map (fun kv => (kv.1, render_default kv.2)) items)
  | _ => v
  end.

(** The rendered value is plain, as deeply nested as the value, and
    rendering it again changes nothing. *)
Definition rendered_well (v : pyval) : Prop :=
  plain (render_default v)
  /\ height (render_default v) = height v
  /\ render_default (render_default v) = render_default v.

(** ** A concrete world, for running the definitions *)

Module Demo.
(** The outside world: a clock that producers may read and advance, the
    directories created and the files written so far. *)
Record world := {
  clock : nat;
  dirs : list string;
  files : list (string * string)
}.

Definition tick : St world pyval :=
  fun w => (Ok (VInt (Z.of_nat (clock w))),
            {| clock := S (clock w); dirs := dirs w; files := files w |}).

(** The name part of a path and its last dotted suffix, as [pathlib]
    computes them for simple relative paths. *)
Fixpoint last_index (c : ascii) (s : list ascii) (i : nat) (found : option nat)
    : option nat :=
  match s with
  | [] => found
  | c' :: rest =>
      last_index c rest (S i) (if decide (c = c') then Some i else found)
  end.

Definition name_of (p : string) : list ascii :=
  let cs := String.list_ascii_of_string p in
  match last_index "/"%char cs 0 None with
  | Some i => drop (S i) cs
  | None => cs
  end.

Definition parent_of (p : string) : string :=
  let cs := String.list_ascii_of_string p in
  match last_index "/"%char cs 0 None with
  | Some i => String.string_of_list_ascii (take i cs)
  | None => "."
  end.

Definition suffix_of (p : string) : string :=
  let name := name_of p in
  match last_index "."%char name 0 None with
  | Some i =>
      if bool_decide (0 < i) && bool_decide (i < List.length name - 1)
      then String.string_of_list_ascii (drop i name)
      else ""
  | None => ""
  end.

#[global] Instance demo_os : OS world := {|
  path_parent := parent_of;
  path_suffix := suffix_of;
  mkdir_parents := fun d w =>
    (Ok tt, {| clock := clock w; dirs := d :: dirs w; files := files w |});
  write_json := fun p _ w =>
    (Ok tt, {| clock := clock w; dirs := dirs w;
               files := (p, "json") :: files w |});
  write_yaml := fun p _ w =>
    (Ok tt, {| clock := clock w; dirs := dirs w;
               files := (p, "yaml") :: files w |})
|}.

Definition w0 : world := {| clock := 7; dirs := []; files := [] |}.

(** Two ways a set can be enumerated. *)
Definition ascending : SetOrder :=
  {| set_iter := elements; set_iter_perm := fun s => reflexivity _ |}.

Definition descending : SetOrder :=
  {| set_iter := fun s => reverse (elements s);
     set_iter_perm := fun s => reverse_Permutation (elements s) |}.

(** A concrete class: [format] joins the values of its arguments that are
    strings. *)
Definition join_strings (kwargs : odict string pyval) : string :=
  foldr (fun kv acc => match kv.2 with
                       | VStr s => s +:+ "|" +:+ acc
                       | _ => "?|" +:+ acc
                       end) "" kwargs.

Definition JoinTemplate : prompt_class world := {|
  class_name := "JoinTemplate";
  class_format := fun _ kwargs => ret (join_strings kwargs);
  class_prompt_type := Ok "join"
|}.

(** A class that keeps the inherited [_prompt_type]. *)
Definition BareTemplate : prompt_class world := {|
  class_name := "BareTemplate";
  class_format := fun _ kwargs => ret (join_strings kwargs);
  class_prompt_type := Err NotImplementedError
|}.

Definition entries_ab : fields world := {|
  formatters := PROMPT_DEFAULT_FORMATTERS;
  input_variables := ["a"; "b"; "c"];
  output_parser := Some (OutputParser "parser");
  partial_variables := [];
  own_fields := [("template", VStr "{a} {b} {c}")]
|}.

Definition T_ab : BasePromptTemplate world :=
  {| type_ := JoinTemplate; dict__ := entries_ab |}.

(** The output parsers whose class defines [_type]. *)
Definition typed_parsers : list string := ["parser"].

(** A serialisation: the declared fields by name, then the fields of the
    concrete class; it raises on an output parser whose class defines no
    [_type]. *)
Definition fields_dict (self : BasePromptTemplate world)
    : result (odict string (field_value world)) :=
  let prompt_dict :=
    ([ ("formatters", FFormatters (formatters (dict__ self)));
       ("input_variables", FNames (input_variables (dict__ self)));
       ("output_parser", FParser (output_parser (dict__ self)));
       ("partial_variables", FPartials (partial_variables (dict__ self))) ]
     ++ (prod_map id FValue <$> own_fields (dict__ self)))%list in
  match output_parser (dict__ self) with
  | Some (OutputParser ref) =>
      if bool_decide (ref ∈ typed_parsers) then Ok prompt_dict
      else Err NotImplementedError
  | None => Ok prompt_dict
  end.

#[global] Instance demo_serializable : Serializable world :=
  {| super_dict := fields_dict |}.

(** A store that holds [T_ab] at address 1, its dictionary at address 0. *)
Definition h0 : store world := [Dict entries_ab; Instance JoinTemplate 0].

(** Formatters of one and of three parameters, and a registry in which a
    class is registered after one of its ancestors. *)
Definition shout : FormatterType world := {|
  fmt_repr := "<function shout>";
  fmt_signature := Some 1;
  fmt_call1 := fun v =>
    match v with
    | VStr s => ret (VStr (s +:+ "!"))
    | _ => ret (VStr "!")
    end;
  fmt_call2 := fun _ _ =>
    raise (TypeError "shout() takes 1 positional argument but 2 were given")
|}.

Definition three : FormatterType world := {|
  fmt_repr := "<function three>";
  fmt_signature := Some 3;
  fmt_call1 := fun _ =>
    raise (TypeError "three() missing 2 required positional arguments");
  fmt_call2 := fun _ _ =>
    raise (TypeError "three() missing 1 required positional argument")
|}.

Definition Chunk : pytype := TClass "Chunk" TDocument.

Definition registry1 : FormattersType world :=
  [ (TDocument, attrgetter_page_content);
    (TList, format_list);
    (TStr, shout);
    (Chunk, three) ].

Definition a_chunk : pyval := VInstance "Chunk" TDocument (VDocument "text" []).
Definition a_note : pyval :=
  VInstance "Note" TDocument (VDocument "remember" []).
(** Values that the validator refuses. *)
Definition entries_stop : fields world := {|
  formatters := PROMPT_DEFAULT_FORMATTERS;
  input_variables := ["stop"; "x"];
  output_parser := None;
  partial_variables := [("x", PStr "1")];
  own_fields := []
|}.

Definition entries_stop_partial : fields world := {|
  formatters := PROMPT_DEFAULT_FORMATTERS;
  input_variables := ["x"];
  output_parser := None;
  partial_variables := [("stop", PStr "now")];
  own_fields := []
|}.

Definition entries_overlap : fields world := {|
  formatters := PROMPT_DEFAULT_FORMATTERS;
  input_variables := ["x"; "y"];
  output_parser := None;
  partial_variables := [("x", PStr "1"); ("z", PCallable tick)];
  own_fields := []
|}.
(** A template with a literal and a produced partial variable. *)
Definition entries_partial : fields world := {|
  formatters := PROMPT_DEFAULT_FORMATTERS;
  input_variables := ["doc"; "who"];
  output_parser := None;
  partial_variables := [("greeting", PStr "hello"); ("now", PCallable tick)];
  own_fields := []
|}.

Definition T_partial : BasePromptTemplate world :=
  {| type_ := JoinTemplate; dict__ := entries_partial |}.
(** The document and the template of the docstring of [format_document]. *)
Definition joke : Document :=
  {| page_content := "This is a joke"; metadata := [("page", VStr "1")] |}.

Definition entries_page : fields world := {|
  formatters := PROMPT_DEFAULT_FORMATTERS;
  input_variables := ["page"; "page_content"];
  output_parser := None;
  partial_variables := [];
  own_fields := [("template", VStr "Page {page}: {page_content}")]
|}.

Definition T_page : BasePromptTemplate world :=
  {| type_ := JoinTemplate; dict__ := entries_page |}.

Definition entries_author : fields world := {|
  formatters := PROMPT_DEFAULT_FORMATTERS;
  input_variables := ["page_content"; "author"; "page"];
  output_parser := None;
  partial_variables := [];
  own_fields := []
|}.

Definition T_author : BasePromptTemplate world :=
  {| type_ := JoinTemplate; dict__ := entries_author |}.
(** A store that holds [T_partial] at address 1. *)
Definition h1 : store world := [Dict entries_partial; Instance JoinTemplate 0].
(** A template of a class that keeps the inherited [_prompt_type]; it has
    no output parser. *)
Definition T_bare : BasePromptTemplate world :=
  {| type_ := BareTemplate; dict__ := entries_page |}.
(** A template of a class that defines [_prompt_type], with an output
    parser whose class defines no [_type]. *)
Definition entries_untyped : fields world := {|
  formatters := PROMPT_DEFAULT_FORMATTERS;
  input_variables := ["page"; "page_content"];
  output_parser := Some (OutputParser "untyped");
  partial_variables := [];
  own_fields := [("template", VStr "Page {page}: {page_content}")]
|}.

Definition T_untyped : BasePromptTemplate world :=
  {| type_ := JoinTemplate; dict__ := entries_untyped |}.
(** A serialisation that leaves out the formatters. *)
Definition bare_dict : Serializable world :=
  {| super_dict := fun self =>
       Ok [("input_variables", FNames (input_variables (dict__ self)))] |}.
(** A mapping that holds a list of a document and a string, and a number. *)
Definition nested : pyval :=
  VDict [("docs", VList [VDocument "first" [("page", VInt 1)]; VStr "second"]);
         ("n", VInt 3)].
(** A producer that raises, after advancing the clock, and a template that
    has it among its partial variables. *)
Definition broken : St world pyval :=
  fun w => (Err (OSError "clock unavailable"),
            {| clock := S (clock w); dirs := dirs w; files := files w |}).

Definition entries_broken : fields world := {|
  formatters := PROMPT_DEFAULT_FORMATTERS;
  input_variables := ["doc"];
  output_parser := None;
  partial_variables :=
    [("first", PCallable tick); ("second", PCallable broken); ("third", PStr "3")];
  own_fields := []
|}.

Definition T_broken : BasePromptTemplate world :=
  {| type_ := JoinTemplate; dict__ := entries_broken |}.
(** A store whose instance at address 1 has a name that is both an input and
    a partial variable. *)
Definition h2 : store world := [Dict entries_overlap; Instance JoinTemplate 0].
(** A store that holds [T_author] at address 1. *)
Definition h3 : store world := [Dict entries_author; Instance JoinTemplate 0].
End Demo.

(** * Properties *)

(** A name is not among those of a given list. *)
Ltac list_not_in :=
  let Hin := fresh "Hin" in
  intros Hin;
  repeat (apply elem_of_cons in Hin as [?|Hin]; [done|]);
  by apply elem_of_nil in Hin.

(** ** Ordered dictionaries *)

Module ODFacts.
Section facts.
Context {K V : Type} `{EqDecision K}.
Implicit Types (d a b c : list (K * V)) (k : K) (v : V).

Lemma get_None k d : OD.get k d = None <-> k ∉ OD.keys d.
Proof.
  unfold OD.keys. induction d as [|[k' v'] d IH]; simpl.
  - split; [intros _; apply not_elem_of_nil | done].
  - rewrite not_elem_of_cons. destruct (decide (k = k')) as [->|Hne].
    + split; [done | intros [? _]; done].
    + rewrite IH. split; [by split | by intros [_ ?]].
Qed.

Lemma get_Some_keys k v d : OD.get k d = Some v -> k ∈ OD.keys d.
Proof.
  intros Hget. destruct (decide (k ∈ OD.keys d)) as [|Hn]; [done|].
  apply get_None in Hn. congruence.
Qed.

Lemma mem_true k d : OD.mem k d = true <-> k ∈ OD.keys d.
Proof.
  unfold OD.mem. destruct (OD.get k d) eqn:E.
  - split; [intros _; eauto using get_Some_keys | done].
  - split; [done | intros Hin; apply get_None in E; done].
Qed.

Lemma mem_false k d : OD.mem k d = false <-> k ∉ OD.keys d.
Proof.
  rewrite <- mem_true. destruct (OD.mem k d); split; congruence.
Qed.

Lemma get_set k k' v d :
  OD.get k (OD.set k' v d) = if decide (k = k') then Some v else OD.get k d.
Proof.
  induction d as [|[k1 v1] d IH]; simpl.
  - destruct (decide (k = k')); done.
  - destruct (decide (k' = k1)) as [->|Hne]; simpl.
    + destruct (decide (k = k1)); done.
    + rewrite IH. destruct (decide (k = k1)) as [->|]; [|done].
      destruct (decide (k1 = k')); [congruence | done].
Qed.

Lemma set_fresh k v d : k ∉ OD.keys d -> OD.set k v d = d ++ [(k, v)].
Proof.
  unfold OD.keys. induction d as [|[k1 v1] d IH]; simpl; [done|].
  rewrite not_elem_of_cons. intros [Hne Hnin].
  destruct (decide (k = k1)); [done|]. by rewrite IH.
Qed.

Lemma keys_set_in k v d : k ∈ OD.keys d -> OD.keys (OD.set k v d) = OD.keys d.
Proof.
  unfold OD.keys. induction d as [|[k1 v1] d IH]; simpl.
  - intros Hin. by apply elem_of_nil in Hin.
  - intros Hin. destruct (decide (k = k1)) as [->|Hne]; simpl; [done|].
    apply elem_of_cons in Hin as [?|Hin]; [done|]. f_equal. by apply IH.
Qed.

Lemma elem_of_keys_set k k' v d :
  k ∈ OD.keys (OD.set k' v d) <-> k = k' \/ k ∈ OD.keys d.
Proof.
  destruct (decide (k' ∈ OD.keys d)) as [Hin|Hnin].
  - rewrite keys_set_in by done. split; [by right | by intros [->|?]].
  - rewrite set_fresh by done. unfold OD.keys. rewrite fmap_app, elem_of_app.
    simpl. rewrite list_elem_of_singleton. tauto.
Qed.

Lemma wf_set k v d : OD.wf d -> OD.wf (OD.set k v d).
Proof.
  unfold OD.wf. intros Hwf. destruct (decide (k ∈ OD.keys d)) as [Hin|Hnin].
  - by rewrite keys_set_in.
  - rewrite set_fresh by done. unfold OD.keys in *. rewrite fmap_app. simpl.
    apply NoDup_app. split; [done|]. split.
    + intros x Hx Hx'. apply list_elem_of_singleton in Hx' as ->. done.
    + apply NoDup_singleton.
Qed.

Lemma set_set k v v' d : OD.set k v (OD.set k v' d) = OD.set k v d.
Proof.
  induction d as [|[k1 v1] d IH]; simpl;
    repeat (case_decide; simplify_eq/=); try done.
  by rewrite IH.
Qed.

Lemma set_comm k1 v1 k2 v2 d :
  k1 <> k2 -> k1 ∈ OD.keys d ->
  OD.set k1 v1 (OD.set k2 v2 d) = OD.set k2 v2 (OD.set k1 v1 d).
Proof.
  unfold OD.keys. intros Hne. induction d as [|[k v] d IH]; simpl; intros Hin.
  - by apply elem_of_nil in Hin.
  - apply elem_of_cons in Hin.
    repeat (case_decide; simplify_eq/=); try done.
    f_equal. apply IH. by destruct Hin.
Qed.

Lemma update_nil d : OD.update d [] = d.
Proof. done. Qed.

Lemma update_cons a k v d :
  OD.update a ((k, v) :: d) = OD.update (OD.set k v a) d.
Proof. done. Qed.

Lemma update_snoc a d k v :
  OD.update a (d ++ [(k, v)]) = OD.set k v (OD.update a d).
Proof. unfold OD.update. by rewrite foldl_app. Qed.

Lemma wf_update a d : OD.wf a -> OD.wf (OD.update a d).
Proof.
  revert a. induction d as [|[k v] d IH]; intros a Hwf; [done|].
  rewrite update_cons. apply IH. by apply wf_set.
Qed.

Lemma elem_of_keys_update k a d :
  k ∈ OD.keys (OD.update a d) <-> k ∈ OD.keys a \/ k ∈ OD.keys d.
Proof.
  revert a. induction d as [|[k' v'] d IH]; intros a.
  - rewrite update_nil. split; [by left | intros [?|Hin]; [done|]].
    by apply elem_of_nil in Hin.
  - rewrite update_cons, IH, elem_of_keys_set. unfold OD.keys. csimpl.
    rewrite elem_of_cons. tauto.
Qed.

(** [{**a, **d}[k]] is [d[k]] when [d] has the key, else [a[k]]. *)
Lemma get_update k a d :
  OD.wf d ->
  OD.get k (OD.update a d) =
    match OD.get k d with Some v => Some v | None => OD.get k a end.
Proof.
  unfold OD.wf, OD.keys. revert a.
  induction d as [|[k' v'] d IH]; intros a Hwf; [done|].
  simpl in Hwf. apply NoDup_cons in Hwf as [Hnin Hwf].
  rewrite update_cons, IH by done. simpl. rewrite get_set.
  destruct (decide (k = k')) as [->|]; [|done].
  apply get_None in Hnin. by rewrite Hnin.
Qed.

Lemma set_update_in k v a d :
  k ∈ OD.keys a -> k ∉ OD.keys d ->
  OD.set k v (OD.update a d) = OD.update (OD.set k v a) d.
Proof.
  unfold OD.keys at 2. revert a.
  induction d as [|[k1 v1] d IH]; intros a Hin Hnin; [done|].
  simpl in Hnin. apply not_elem_of_cons in Hnin as [Hne Hnin].
  rewrite !update_cons, IH; [|apply elem_of_keys_set; by right|done].
  by rewrite set_comm.
Qed.

Lemma update_set a k v d :
  OD.wf d -> OD.update a (OD.set k v d) = OD.set k v (OD.update a d).
Proof.
  unfold OD.wf, OD.keys at 1. revert a.
  induction d as [|[k1 v1] d IH]; intros a Hwf; [done|].
  simpl in Hwf. apply NoDup_cons in Hwf as [Hnin Hwf]. simpl.
  destruct (decide (k = k1)) as [->|Hne].
  - rewrite !update_cons.
    rewrite set_update_in; [|apply elem_of_keys_set; by left|done].
    by rewrite set_set.
  - rewrite !update_cons. by apply IH.
Qed.

(** [{**{**a, **b}, **c}] and [{**a, **{**b, **c}}] are the same
    dictionary, entry for entry and in the same order. *)
Lemma update_assoc a b c :
  OD.wf b -> OD.update (OD.update a b) c = OD.update a (OD.update b c).
Proof.
  intros Hwf. induction c as [|[k v] c IH] using rev_ind; [done|].
  rewrite !update_snoc, IH, update_set; [done|]. by apply wf_update.
Qed.
End facts.
End ODFacts.

(** ** The monad and the comprehensions *)

Section comprehensions.
Context {W A K V : Type} `{EqDecision K}.
Implicit Types (key : A -> K) (val : A -> St W V).

Lemma bind_ret_l {B C} (b : B) (k : B -> St W C) w :
  bind (ret b) k w = k b w.
Proof. done. Qed.

Lemma bind_assoc {B C D} (m : St W B) (k : B -> St W C) (k' : C -> St W D) w :
  bind (bind m k) k' w = bind m (fun b => bind (k b) k') w.
Proof. unfold bind. destruct (m w) as [[b|e] w']; done. Qed.

Lemma bind_ext {B C} (m : St W B) (k k' : B -> St W C) w :
  (forall b w', k b w' = k' b w') -> bind m k w = bind m k' w.
Proof. intros Hk. unfold bind. destruct (m w) as [[b|e] w']; [apply Hk | done]. Qed.

Lemma bind_ext_ok {B C} (m : St W B) (k k' : B -> St W C) w :
  (forall b w', m w = (Ok b, w') -> k b w' = k' b w') -> bind m k w = bind m k' w.
Proof. intros Hk. unfold bind. destruct (m w) as [[b|e] w']; [by apply Hk | done]. Qed.

Lemma bind_cong_l {B C} (m m' : St W B) (k : B -> St W C) w :
  m w = m' w -> bind m k w = bind m' k w.
Proof. intros Hm. unfold bind. by rewrite Hm. Qed.

(** A comprehension over [items1 ++ items2] runs over [items1], then goes
    on over [items2] from the entries stored so far. *)
Lemma dict_comp_from_app key val items1 items2 (acc : odict K V) w :
  dict_comp_from key val (items1 ++ items2) acc w =
  bind (dict_comp_from key val items1 acc)
       (fun acc' => dict_comp_from key val items2 acc') w.
Proof.
  revert acc w. induction items1 as [|a items1 IH]; intros acc w; [done|].
  simpl. rewrite bind_assoc. apply bind_ext. intros v w'. apply IH.
Qed.
End comprehensions.

Section traverse.
Context {W K A B : Type} `{EqDecision K}.
Implicit Types (f : A -> St W B) (d : odict K A) (acc : odict K B).

Lemma traverse_values_keys f d w out w' :
  traverse_values f d w = (Ok out, w') -> OD.keys out = OD.keys d.
Proof.
  revert w out. induction d as [|[k a] d IH]; intros w out; simpl.
  - unfold ret. intros [= <- <-]. done.
  - unfold bind at 1. destruct (f a w) as [[b|e] w1]; [|done].
    unfold bind at 1. destruct (traverse_values f d w1) as [[r|e] w2] eqn:E; [|done].
    unfold ret. intros [= <- <-]. unfold OD.keys. csimpl. f_equal.
    by apply (IH _ _ E).
Qed.

(** Over a dictionary (no key twice) the comprehension stores one entry per
    entry, after the ones already there. *)
Lemma dict_comp_from_traverse f d acc w :
  OD.wf d -> (forall k, k ∈ OD.keys d -> k ∉ OD.keys acc) ->
  dict_comp_from fst (fun kv => f kv.2) d acc w =
  bind (traverse_values f d) (fun r => ret (acc ++ r)) w.
Proof.
  unfold OD.wf. revert acc w.
  induction d as [|[k a] d IH]; intros acc w Hwf Hfresh; simpl.
  - rewrite bind_ret_l. by rewrite app_nil_r.
  - unfold OD.keys in Hwf. simpl in Hwf. apply NoDup_cons in Hwf as [Hk Hwf].
    rewrite bind_assoc. apply bind_ext. intros b w1.
    rewrite IH; [|done|].
    + rewrite bind_assoc. apply bind_ext. intros r w2. rewrite bind_ret_l.
      rewrite ODFacts.set_fresh.
      * by rewrite <- app_assoc.
      * apply Hfresh. unfold OD.keys. csimpl. apply elem_of_cons. by left.
    + intros k' Hk' Hin. apply ODFacts.elem_of_keys_set in Hin as [->|Hin]; [done|].
      revert Hin. apply Hfresh. unfold OD.keys. csimpl. apply elem_of_cons. by right.
Qed.

Lemma dict_comp_traverse f d w :
  OD.wf d -> dict_comp fst (fun kv => f kv.2) d w = traverse_values f d w.
Proof.
  intros Hwf. unfold dict_comp. rewrite dict_comp_from_traverse; [|done|].
  - unfold bind. destruct (traverse_values f d w) as [[r|e] w']; done.
  - intros k _ Hin. by apply elem_of_nil in Hin.
Qed.
End traverse.

(** ** Formatter dispatch *)

Section dispatch.
Context {World : Type}.
Implicit Types (R : FormattersType World) (f : FormatterType World)
  (v : pyval) (depth : nat).

Lemma issubclass_refl t : issubclass t t = true.
Proof. destruct t; cbn [issubclass]; by rewrite decide_True. Qed.

Lemma isinstance_type_of v : isinstance v (type_of v) = true.
Proof. apply issubclass_refl. Qed.

Lemma find_none_get_none R v :
  (forall t f, (t, f) ∈ R -> isinstance v t = false) ->
  OD.get (type_of v) R = None /\
  List.find (fun entry => isinstance v entry.1) R = None.
Proof.
  induction R as [|[t f] R IH]; intros Hno; [done|].
  destruct IH as [IH1 IH2].
  { intros t' f' Hin. apply (Hno t' f'). by apply elem_of_cons; right. }
  assert (Ht : isinstance v t = false) by (apply (Hno t f), elem_of_cons; by left).
  simpl. rewrite Ht, IH1, IH2. split; [|done].
  destruct (decide (type_of v = t)) as [<-|]; [|done].
  by rewrite isinstance_type_of in Ht.
Qed.

Lemma find_first R v pre t f post :
  R = pre ++ (t, f) :: post ->
  Forall (fun entry => isinstance v entry.1 = false) pre ->
  isinstance v t = true ->
  List.find (fun entry => isinstance v entry.1) R = Some (t, f).
Proof.
  intros -> Hpre Ht. induction Hpre as [|[t' f'] pre Hhd _ IH]; simpl in *.
  - by rewrite Ht.
  - by rewrite Hhd.
Qed.

(** C1: [_format_value] uses the formatter registered under the exact type
    of the value when there is one; otherwise the first entry, in insertion
    order, of whose type the value is an instance; and when no entry matches
    it returns the value unchanged. *)
Theorem format_value_dispatch depth R v :
  (forall f, OD.get (type_of v) R = Some f ->
     _format_value depth R v = _apply_formatter depth R f v)
  /\ (forall pre t f post,
        OD.get (type_of v) R = None ->
        R = pre ++ (t, f) :: post ->
        Forall (fun entry => isinstance v entry.1 = false) pre ->
        isinstance v t = true ->
        _format_value depth R v = _apply_formatter depth R f v)
  /\ ((forall t f, (t, f) ∈ R -> isinstance v t = false) ->
        _format_value depth R v = ret v).
Proof.
  split; [|split].
  - intros f Hget. destruct depth; simpl; by rewrite Hget.
  - intros pre t f post Hget HR Hpre Ht.
    pose proof (find_first R v pre t f post HR Hpre Ht) as Hfind.
    destruct depth; simpl; by rewrite Hget, Hfind.
  - intros Hno. destruct (find_none_get_none R v Hno) as [Hget Hfind].
    destruct depth; simpl; by rewrite Hget, Hfind.
Qed.

(** C4: [_apply_formatter] looks at the number of parameters of the
    formatter: with one it calls the formatter on the value alone; with two
    it calls it on the value and on [_format_value] bound to the same
    registry; with any other number it raises a [ValueError] that names the
    formatter and the number. *)
Theorem apply_formatter_by_arity depth R f v :
  (fmt_signature f = Some 1 ->
     _apply_formatter depth R f v = fmt_call1 f v)
  /\ (fmt_signature f = Some 2 ->
        _apply_formatter depth R f v
          = fmt_call2 f v (bound_format_value depth R)
        /\ forall v', bound_format_value (S depth) R v' = _format_value depth R v')
  /\ (forall n, fmt_signature f = Some n -> n <> 1 -> n <> 2 ->
        _apply_formatter depth R f v
          = raise (ValueError
              [Lit "Formatter "; ReprCallable (fmt_repr f);
               Lit " has too many arguments ("; FmtNat n;
               Lit "), expected 1 or 2."])).
Proof.
  unfold _apply_formatter, _apply_formatter_body, bound_format_value.
  split; [|split].
  - by intros ->.
  - by intros ->.
  - intros n -> Hn1 Hn2. cbv zeta.
    destruct (decide (n = 1)); [done|]. destruct (decide (n = 2)); done.
Qed.

(** The default registry: a list is formatted element by element, a
    mapping value by value, a document is reduced to its text. *)
Lemma default_formats_list depth items :
  _format_value (S depth) (PROMPT_DEFAULT_FORMATTERS (World := World)) (VList items)
  = (out <- list_comp (_format_value depth PROMPT_DEFAULT_FORMATTERS) items ;;
     ret (VList out)).
Proof. reflexivity. Qed.

Lemma default_formats_dict depth items :
  _format_value (S depth) (PROMPT_DEFAULT_FORMATTERS (World := World)) (VDict items)
  = (out <- dict_comp fst
              (fun kv => _format_value depth PROMPT_DEFAULT_FORMATTERS kv.2) items ;;
     ret (VDict out)).
Proof. reflexivity. Qed.

Lemma default_formats_document depth text meta :
  _format_value depth (PROMPT_DEFAULT_FORMATTERS (World := World))
    (VDocument text meta)
  = ret (VStr text).
Proof. by destruct depth. Qed.

(** A callable whose signature cannot be inspected is called with the value
    alone. *)
Lemma apply_formatter_no_signature depth R f v :
  fmt_signature f = None -> _apply_formatter depth R f v = fmt_call1 f v.
Proof. unfold _apply_formatter, _apply_formatter_body. by intros ->. Qed.
End dispatch.

(** The three cases of the dispatch, run; [a_chunk] is an instance of a
    registered class, [a_note] of an unregistered class that derives from
    [Document], and an integer matches nothing. *)
Lemma format_value_dispatch_witness :
  _format_value 1 Demo.registry1 Demo.a_chunk Demo.w0
    = _apply_formatter 1 Demo.registry1 Demo.three Demo.a_chunk Demo.w0
  /\ _format_value 1 Demo.registry1 Demo.a_note Demo.w0
       = (Ok (VStr "remember"), Demo.w0)
  /\ _format_value 1 Demo.registry1 (VInt 3) Demo.w0 = (Ok (VInt 3), Demo.w0).
Proof.
  split; [|split].
  - rewrite (proj1 (format_value_dispatch 1 Demo.registry1 Demo.a_chunk)
               Demo.three); reflexivity.
  - rewrite (proj1 (proj2 (format_value_dispatch 1 Demo.registry1 Demo.a_note))
               [] TDocument attrgetter_page_content
               [(TList, format_list); (TStr, Demo.shout); (Demo.Chunk, Demo.three)]);
      [reflexivity | reflexivity | reflexivity | constructor | reflexivity].
  - rewrite (proj2 (proj2 (format_value_dispatch 1 Demo.registry1 (VInt 3))));
      [reflexivity|].
    intros t f Hin. repeat (apply elem_of_cons in Hin as [[= -> ->]|Hin]; [reflexivity|]).
    by apply elem_of_nil in Hin.
Defined.

Lemma apply_formatter_by_arity_witness :
  _apply_formatter 1 Demo.registry1 Demo.shout (VStr "hi") Demo.w0
    = (Ok (VStr "hi!"), Demo.w0)
  /\ _apply_formatter 1 Demo.registry1 format_list
       (VList [VStr "hi"; VInt 2]) Demo.w0
       = (Ok (VList [VStr "hi!"; VInt 2]), Demo.w0)
  /\ _apply_formatter 1 Demo.registry1 Demo.three (VStr "hi") Demo.w0
       = (Err (ValueError
            [Lit "Formatter "; ReprCallable "<function three>";
             Lit " has too many arguments ("; FmtNat 3;
             Lit "), expected 1 or 2."]), Demo.w0).
Proof.
  split; [|split].
  - rewrite (proj1 (apply_formatter_by_arity 1 Demo.registry1 Demo.shout (VStr "hi")));
      reflexivity.
  - rewrite (proj1 (proj1 (proj2 (apply_formatter_by_arity 1 Demo.registry1
               format_list (VList [VStr "hi"; VInt 2]))) eq_refl)).
    reflexivity.
  - rewrite (proj2 (proj2 (apply_formatter_by_arity 1 Demo.registry1
               Demo.three (VStr "hi"))) 3); [reflexivity | reflexivity | lia | lia].
Defined.

(** ** Sets of names *)

Section set_order.
Context `{!SetOrder}.

Lemma elem_of_set_iter (s : gset string) x : x ∈ set_iter s <-> x ∈ s.
Proof. rewrite (set_iter_perm s). apply elem_of_elements. Qed.

Lemma NoDup_set_iter (s : gset string) : NoDup (set_iter s).
Proof. rewrite (set_iter_perm s). apply NoDup_elements. Qed.

Lemma elem_of_set_of (names : list string) x : x ∈ set_of names <-> x ∈ names.
Proof. apply elem_of_list_to_set. Qed.
End set_order.

(** ** Validation at construction *)

Section validation.
Context {World : Type} `{!SetOrder}.
Implicit Types (values : fields World) (cls : prompt_class World).

(** The values the validator accepts. *)
Lemma validate_Ok_iff values values' :
  validate_variable_names values = Ok values' <->
  values' = values
  /\ ("stop" ∉ input_variables values)
  /\ ("stop" ∉ OD.keys (partial_variables values))
  /\ (forall x, x ∈ input_variables values ->
        x ∉ OD.keys (partial_variables values)).
Proof.
  unfold validate_variable_names.
  case_bool_decide as Hiv.
  { split; [done | intros (_ & ? & _); done]. }
  destruct (OD.mem "stop" (partial_variables values)) eqn:Hpv.
  { apply ODFacts.mem_true in Hpv. split; [done | intros (_ & _ & ? & _); done]. }
  apply ODFacts.mem_false in Hpv.
  case_bool_decide as Hov.
  - split; [done|]. intros (_ & _ & _ & Hdisj). exfalso. apply Hov.
    apply set_eq. intros x. rewrite elem_of_intersection, !elem_of_set_of.
    split; [|set_solver]. intros [Hx Hx']. by destruct (Hdisj x Hx).
  - split.
    + intros [= <-]. repeat split; try done. intros x Hx Hx'.
      assert (Hin : x ∈ set_of (input_variables values)
                      ∩ set_of (OD.keys (partial_variables values)))
        by by rewrite elem_of_intersection, !elem_of_set_of.
      rewrite Hov in Hin. by apply not_elem_of_empty in Hin.
    + by intros (-> & _).
Qed.

(** C5: construction fails with a [ValueError] when ["stop"] is among the
    input variables, when it is among the partial variables, and when a name
    is both an input and a partial variable; the last error, raised when
    ["stop"] is in neither, lists exactly the names that are in both.
    Construction runs the validator once: it fails with the validator's
    error and otherwise yields an instance holding the values as given. *)
Theorem construction_validates cls values :
  ("stop" ∈ input_variables values ->
     validate_variable_names values = Err (ValueError
       [Lit "Cannot have an input variable named 'stop', as it is used internally, please rename."]))
  /\ ("stop" ∈ OD.keys (partial_variables values) ->
        exists msg, validate_variable_names values = Err (ValueError msg))
  /\ (forall x, x ∈ input_variables values ->
        x ∈ OD.keys (partial_variables values) ->
        exists msg, validate_variable_names values = Err (ValueError msg)
          /\ ("stop" ∉ input_variables values ->
              "stop" ∉ OD.keys (partial_variables values) ->
              exists names,
                msg = [Lit "Found overlapping input and partial variables: ";
                       ReprSet names]
                /\ NoDup names
                /\ forall y, y ∈ names <->
                     y ∈ input_variables values
                     /\ y ∈ OD.keys (partial_variables values)))
  /\ (forall e, construct cls values = Err e <->
        validate_variable_names values = Err e)
  /\ (forall self, construct cls values = Ok self <->
        validate_variable_names values = Ok values
        /\ self = {| type_ := cls; dict__ := values |}).
Proof.
  split; [|split; [|split; [|split]]].
  - intros Hin. unfold validate_variable_names. by rewrite bool_decide_eq_true_2.
  - intros Hin. unfold validate_variable_names. case_bool_decide; [by eexists|].
    apply ODFacts.mem_true in Hin. rewrite Hin. by eexists.
  - intros x Hx Hx'. unfold validate_variable_names.
    case_bool_decide as Hiv; [eexists; split; [done|]; by intros ?|].
    destruct (OD.mem "stop" (partial_variables values)) eqn:Hpv.
    { apply ODFacts.mem_true in Hpv. eexists; split; [done|]. by intros _ ?. }
    rewrite bool_decide_eq_true_2.
    + eexists; split; [done|]. intros _ _. eexists. split; [done|].
      split; [apply NoDup_set_iter|]. intros y.
      by rewrite elem_of_set_iter, elem_of_intersection, !elem_of_set_of.
    + apply (non_empty_inhabited_L x).
      by rewrite elem_of_intersection, !elem_of_set_of.
  - intros e. unfold construct.
    destruct (validate_variable_names values); split; congruence.
  - intros self. unfold construct.
    destruct (validate_variable_names values) as [values'|e] eqn:Hv.
    + apply validate_Ok_iff in Hv as [-> _]. split.
      * by intros [= <-].
      * by intros [_ ->].
    + split; [done | by intros [? _]].
Qed.
End validation.

(** Preparation invokes the producers anew every time: two preparations in
    a row read the clock at 7 and then at 8. *)
Example prepare_twice :
  (first <- _prepare_variables 1 Demo.T_partial [] ;;
   second <- _prepare_variables 1 Demo.T_partial [] ;;
   ret (OD.get "now" first, OD.get "now" second)) Demo.w0
  = (Ok (Some (VInt 7), Some (VInt 8)),
     {| Demo.clock := 9; Demo.dirs := []; Demo.files := [] |}).
Proof. reflexivity. Qed.

Lemma construction_validates_witness :
  (exists msg,
     @validate_variable_names _ Demo.ascending Demo.entries_stop_partial
       = Err (ValueError msg))
  /\ (exists names,
        @validate_variable_names _ Demo.ascending Demo.entries_overlap
          = Err (ValueError
              [Lit "Found overlapping input and partial variables: ";
               ReprSet names])
        /\ forall y, y ∈ names <-> y ∈ ["x"; "y"] /\ y ∈ ["x"; "z"])
  /\ @construct _ Demo.ascending Demo.JoinTemplate Demo.entries_ab
       = Ok Demo.T_ab.
Proof.
  pose proof (@construction_validates _ Demo.ascending Demo.JoinTemplate) as thm.
  split; [|split].
  - apply (proj1 (proj2 (thm Demo.entries_stop_partial))). by left.
  - destruct (proj1 (proj2 (proj2 (thm Demo.entries_overlap))) "x")
      as (msg & Hmsg & Hnames); [by left | by left |].
    destruct Hnames as (names & -> & _ & Hnames).
    + list_not_in.
    + list_not_in.
    + exists names. split; [exact Hmsg | exact Hnames].
  - apply (proj2 (proj2 (proj2 (proj2 (thm Demo.entries_ab))))). by split.
Defined.

(** ** Variable preparation *)

Section preparation.
Context {World : Type}.
Implicit Types (self : BasePromptTemplate World) (supplied : odict string pyval).

(** C3: [_prepare_variables] resolves every partial variable (a string as it
    is, a callable by invoking it), lays the supplied mapping over the
    resolved partial variables (a supplied value wins, the other entries are
    kept), and returns the result with [_format_value] applied to every
    value. *)
Theorem prepare_variables_refines depth self supplied :
  OD.wf (partial_variables (dict__ self)) ->
  (forall w, _prepare_variables depth self supplied w
             = prepare_variables_steps depth self supplied w)
  /\ (forall resolved k,
        k ∈ OD.keys (OD.update resolved supplied)
        <-> k ∈ OD.keys resolved \/ k ∈ OD.keys supplied)
  /\ (OD.wf supplied -> forall resolved k,
        OD.get k (OD.update resolved supplied)
        = match OD.get k supplied with
          | Some v => Some v
          | None => OD.get k resolved
          end).
Proof.
  intros Hwf. split; [|split].
  - intros w. unfold _prepare_variables, prepare_variables_steps.
    pose proof (dict_comp_traverse resolve_partial
                  (partial_variables (dict__ self)) w Hwf) as Eres.
    unfold resolve_partial in Eres at 1.
    unfold bind. rewrite Eres.
    destruct (traverse_values resolve_partial (partial_variables (dict__ self)) w)
      as [[resolved|e] w'] eqn:Hres; [|done].
    apply dict_comp_traverse, ODFacts.wf_update. unfold OD.wf.
    by rewrite (traverse_values_keys _ _ _ _ _ Hres).
  - intros resolved k. apply ODFacts.elem_of_keys_update.
  - intros Hsup resolved k. by apply ODFacts.get_update.
Qed.
End preparation.

(** Preparation run on a template with a literal and a produced partial
    variable: the producer reads the clock and advances it, the supplied
    document is reduced to its text. *)
Lemma prepare_variables_refines_witness :
  _prepare_variables 2 Demo.T_partial
      [("doc", VDocument "text" []); ("greeting", VStr "hi")] Demo.w0
    = prepare_variables_steps 2 Demo.T_partial
        [("doc", VDocument "text" []); ("greeting", VStr "hi")] Demo.w0
  /\ prepare_variables_steps 2 Demo.T_partial
        [("doc", VDocument "text" []); ("greeting", VStr "hi")] Demo.w0
      = (Ok [("greeting", VStr "hi"); ("now", VInt 7); ("doc", VStr "text")],
         {| Demo.clock := 8; Demo.dirs := []; Demo.files := [] |}).
Proof.
  split; [|reflexivity].
  apply (prepare_variables_refines 2 Demo.T_partial).
  unfold OD.wf. simpl. repeat (apply NoDup_cons; split; [list_not_in|]).
  apply NoDup_nil_2.
Defined.

(** ** Formatting a document *)

Section document_formatting.
Context {World : Type} `{!SetOrder}.
Implicit Types (doc : Document) (prompt : BasePromptTemplate World).

Local Abbreviation base_info doc :=
  (OD.update [("page_content", VStr (page_content doc))] (metadata doc)).

Lemma first_occurrences_from_NoDup seen names :
  NoDup names -> (forall x, x ∈ names -> x ∉ seen) ->
  first_occurrences_from seen names = names.
Proof.
  revert seen. induction names as [|x names IH]; intros seen Hnd Hfresh; [done|].
  apply NoDup_cons in Hnd as [Hx Hnd]. simpl.
  rewrite decide_False by (apply Hfresh; by left). f_equal.
  apply IH; [done|]. intros y Hy Hin. apply elem_of_app in Hin as [Hin|Hin].
  - revert Hin. apply Hfresh. by right.
  - apply list_elem_of_singleton in Hin as ->. done.
Qed.

Lemma first_occurrences_NoDup names :
  NoDup names -> first_occurrences names = names.
Proof.
  intros Hnd. apply first_occurrences_from_NoDup; [done|].
  intros x _ Hin. by apply elem_of_nil in Hin.
Qed.

(** The comprehension [{k: base[k] for k in names}] when every name is a
    key of [base]. *)
Lemma select_entries (base : odict string pyval) names acc :
  (forall k, k ∈ names -> is_Some (OD.get k base)) ->
  exists out,
    (forall w : World,
       dict_comp_from id
         (fun k => match OD.get k base with
                   | Some v => ret v
                   | None => raise (KeyError k)
                   end) names acc w = (Ok out, w))
    /\ OD.keys out = OD.keys acc ++ first_occurrences_from (OD.keys acc) names
    /\ forall k, OD.get k out
                 = if decide (k ∈ names) then OD.get k base else OD.get k acc.
Proof.
  revert acc. induction names as [|a names IH]; intros acc Hall.
  - exists acc. split; [done|]. split; [by rewrite app_nil_r|].
    intros k. destruct (decide (k ∈ [])) as [Hin|]; [|done].
    by apply elem_of_nil in Hin.
  - destruct (Hall a) as [v Hv]; [by left|].
    destruct (IH (OD.set a v acc)) as (out & Hrun & Hkeys & Hget).
    { intros k Hk. apply Hall. by right. }
    exists out. split; [|split].
    + intros w. cbn [dict_comp_from]. unfold bind. rewrite Hv. apply Hrun.
    + rewrite Hkeys. cbn [first_occurrences_from].
      destruct (decide (a ∈ OD.keys acc)) as [Hin|Hnin].
      * by rewrite ODFacts.keys_set_in.
      * rewrite ODFacts.set_fresh by done. unfold OD.keys.
        rewrite fmap_app. simpl. by rewrite <- app_assoc.
    + intros k. rewrite Hget, ODFacts.get_set.
      destruct (decide (k ∈ a :: names)) as [Hin|Hnin];
        destruct (decide (k ∈ names)) as [Hin'|Hnin']; try done.
      * apply elem_of_cons in Hin as [->|?]; [|done].
        by rewrite decide_True.
      * exfalso. apply Hnin. by right.
      * rewrite decide_False; [done|]. intros ->. apply Hnin. by left.
Qed.

(** C6: [format_document] lays the metadata over the entry
    ["page_content"]; when a declared input variable is not a key of that
    mapping it raises a [ValueError] listing the declared names other than
    ["page_content"] and the names that are missing; otherwise it returns
    what [format] returns on the entries of the mapping that the input
    variables name, in their declared order. *)
Theorem format_document_spec doc prompt :
  (OD.wf (metadata doc) -> forall k,
     OD.get k (base_info doc)
     = match OD.get k (metadata doc) with
       | Some v => Some v
       | None => if decide (k = "page_content")
                 then Some (VStr (page_content doc)) else None
       end)
  /\ (forall name,
        name ∈ input_variables (dict__ prompt) ->
        OD.get name (base_info doc) = None ->
        exists missing,
          NoDup missing
          /\ (forall y, y ∈ missing <->
                 y ∈ input_variables (dict__ prompt)
                 /\ OD.get y (base_info doc) = None)
          /\ forall w, format_document doc prompt w
               = (Err (ValueError
                    [Lit "Document prompt requires documents to have metadata variables: ";
                     ReprList (filter (fun iv => iv ≠ "page_content")
                                 (input_variables (dict__ prompt)));
                     Lit ". Received document with missing metadata: ";
                     ReprList missing;
                     Lit "."]), w))
  /\ ((forall name, name ∈ input_variables (dict__ prompt) ->
         is_Some (OD.get name (base_info doc))) ->
       exists document_info,
         OD.keys document_info = first_occurrences (input_variables (dict__ prompt))
         /\ (NoDup (input_variables (dict__ prompt)) ->
             OD.keys document_info = input_variables (dict__ prompt))
         /\ (forall k, k ∈ input_variables (dict__ prompt) ->
                OD.get k document_info = OD.get k (base_info doc))
         /\ forall w, format_document doc prompt w = format prompt document_info w).
Proof.
  split; [|split].
  - intros Hwf k. rewrite ODFacts.get_update by done.
    destruct (OD.get k (metadata doc)); [done|]. simpl.
    destruct (decide (k = "page_content")); done.
  - intros name Hin Hnone.
    set (missing := set_of (input_variables (dict__ prompt))
                      ∖ set_of (OD.keys (base_info doc))).
    assert (Hmem : forall y, y ∈ missing <->
              y ∈ input_variables (dict__ prompt)
              /\ OD.get y (base_info doc) = None).
    { intros y. unfold missing.
      by rewrite elem_of_difference, !elem_of_set_of, ODFacts.get_None. }
    exists (set_iter missing). split; [apply NoDup_set_iter|]. split.
    + intros y. by rewrite elem_of_set_iter.
    + intros w. unfold format_document. fold missing.
      rewrite decide_True; [done|].
      assert (name ∈ missing) as Hname by by apply Hmem.
      assert (size missing ≠ 0); [|lia].
      apply size_non_empty_iff. intros Hempty.
      rewrite Hempty in Hname. by apply not_elem_of_empty in Hname.
  - intros Hall.
    destruct (select_entries (base_info doc) (input_variables (dict__ prompt)) [])
      as (out & Hrun & Hkeys & Hget); [exact Hall|].
    exists out. split; [exact Hkeys|]. split; [|split].
    + intros Hnd. rewrite Hkeys. by apply first_occurrences_NoDup.
    + intros k Hk. rewrite Hget. by rewrite decide_True.
    + intros w. unfold format_document.
      rewrite decide_False.
      * unfold bind, dict_comp. by rewrite Hrun.
      * intros Hpos. apply size_pos_elem_of in Hpos as [y Hy].
        apply elem_of_difference in Hy as [Hy Hy'].
        rewrite elem_of_set_of in Hy, Hy'. apply ODFacts.get_None in Hy'.
        destruct (Hall y Hy) as [v Hv]. congruence.
Qed.
End document_formatting.

(** The example of the docstring, and a template that asks for a name the
    document does not have. *)
Lemma format_document_spec_witness :
  (exists document_info,
     OD.keys document_info = ["page"; "page_content"]
     /\ OD.get "page" document_info = Some (VStr "1")
     /\ OD.get "page_content" document_info = Some (VStr "This is a joke")
     /\ @format_document _ Demo.ascending Demo.joke Demo.T_page Demo.w0
        = format Demo.T_page document_info Demo.w0)
  /\ @format_document _ Demo.ascending Demo.joke Demo.T_page Demo.w0
     = (Ok "1|This is a joke|", Demo.w0)
  /\ (exists missing,
        (forall y, y ∈ missing <-> y = "author")
        /\ @format_document _ Demo.ascending Demo.joke Demo.T_author Demo.w0
           = (Err (ValueError
                [Lit "Document prompt requires documents to have metadata variables: ";
                 ReprList ["author"; "page"];
                 Lit ". Received document with missing metadata: ";
                 ReprList missing;
                 Lit "."]), Demo.w0)).
Proof.
  split; [|split].
  - destruct (proj2 (proj2 (@format_document_spec _ Demo.ascending
                              Demo.joke Demo.T_page)))
      as (document_info & Hkeys & _ & Hget & Hrun).
    { intros name Hin.
      repeat (apply elem_of_cons in Hin as [->|Hin]; [by eexists|]).
      by apply elem_of_nil in Hin. }
    exists document_info. split; [exact Hkeys|].
    split; [apply Hget; by left|].
    split; [apply Hget; right; by left|]. apply Hrun.
  - reflexivity.
  - destruct (proj1 (proj2 (@format_document_spec _ Demo.ascending
                              Demo.joke Demo.T_author)) "author")
      as (missing & _ & Hmem & Hrun); [right; by left | reflexivity |].
    exists missing. split; [|apply Hrun].
    intros y. rewrite Hmem. split.
    + intros [Hin Hnone].
      repeat (apply elem_of_cons in Hin as [->|Hin]; [done|]).
      by apply elem_of_nil in Hin.
    + intros ->. split; [right; by left | reflexivity].
Defined.

(** ** The store: what [partial] allocates and what it leaves alone *)

Section partial_store.
Context {World : Type} `{!SetOrder}.
Implicit Types (h : store World) (self d : loc) (cls : prompt_class World)
  (e : fields World) (kwargs b : odict string (partial_variable World))
  (T : BasePromptTemplate World).

Lemma lookup_old h (t : store World) l o :
  h !! l = Some o -> (h ++ t) !! l = Some o.
Proof. intros Hl. by apply lookup_app_l_Some. Qed.

Lemma lookup_new h o : (h ++ [o]) !! List.length h = Some o.
Proof. by rewrite list_lookup_middle. Qed.

Lemma insert_new h o o' : <[List.length h := o']> (h ++ [o]) = h ++ [o'].
Proof.
  rewrite insert_app_r_alt by done. by rewrite Nat.sub_diag.
Qed.

Lemma load_Some h self T :
  load h self = Some T <->
  exists d, h !! self = Some (Instance (type_ T) d)
            /\ h !! d = Some (Dict (dict__ T)).
Proof.
  unfold load. split.
  - destruct (h !! self) as [[cls d|]|] eqn:Hself; try done.
    destruct (h !! d) as [[|e]|] eqn:Hd; try done.
    intros [= <-]. by exists d.
  - intros (d & -> & ->). by destruct T.
Qed.

(** [partial], run: it allocates the copy of the dictionary and, when the
    validator accepts the values, the dictionary of the new instance and the
    new instance; it writes nowhere else. *)
Lemma partial_run h self cls d e kwargs :
  h !! self = Some (Instance cls d) ->
  h !! d = Some (Dict e) ->
  partial self kwargs h =
    match validate_variable_names (partial_values e kwargs) with
    | Ok values =>
        (Ok (S (S (List.length h))),
         h ++ [Dict (partial_values e kwargs); Dict values;
               Instance cls (S (List.length h))])
    | Err err => (Err err, h ++ [Dict (partial_values e kwargs)])
    end.
Proof.
  intros Hself Hd.
  unfold partial. unfold bind at 1. unfold getattr_dict at 1. rewrite Hself.
  unfold bind at 1. unfold dict_copy, bind at 1. unfold read_dict at 1.
  rewrite Hd. unfold alloc at 1.
  unfold bind at 1. unfold getattr, bind at 1, bind at 1.
  unfold getattr_dict at 1. rewrite (lookup_old _ _ _ _ Hself).
  unfold read_dict at 1. rewrite (lookup_old _ _ _ _ Hd). unfold ret at 1.
  unfold bind at 1. unfold setitem at 1. rewrite lookup_new, insert_new.
  unfold bind at 1. unfold bind at 1, bind at 1.
  unfold getattr_dict at 1. rewrite (lookup_old _ _ _ _ Hself).
  unfold read_dict at 1. rewrite (lookup_old _ _ _ _ Hd). unfold ret at 1.
  unfold bind at 1. unfold setitem at 1. rewrite lookup_new, insert_new.
  unfold bind at 1. unfold type_of_instance. rewrite (lookup_old _ _ _ _ Hself).
  unfold new_instance, bind at 1. unfold read_dict. rewrite lookup_new.
  unfold bind at 1, lift, construct.
  fold (partial_values e kwargs).
  destruct (validate_variable_names (partial_values e kwargs)) as [values|err];
    [|done].
  unfold bind, alloc. simpl. rewrite !length_app. simpl.
  rewrite <- !app_assoc. simpl. do 2 f_equal; [lia|]. do 4 f_equal. lia.
Qed.
Lemma lookup_allocated h (o1 o2 o3 : object World) :
  (h ++ [o1; o2; o3]) !! S (List.length h) = Some o2
  /\ (h ++ [o1; o2; o3]) !! S (S (List.length h)) = Some o3.
Proof.
  split.
  - rewrite lookup_app_r by lia.
    by replace (S (List.length h) - List.length h) with 1 by lia.
  - rewrite lookup_app_r by lia.
    by replace (S (S (List.length h)) - List.length h) with 2 by lia.
Qed.

Lemma elem_of_partial_input_variables e kwargs x :
  x ∈ input_variables (partial_values e kwargs)
  <-> x ∈ input_variables e /\ x ∉ OD.keys kwargs.
Proof.
  unfold partial_values. simpl.
  by rewrite elem_of_set_iter, elem_of_difference, !elem_of_set_of.
Qed.

(** The values [partial] builds from a valid template pass validation,
    unless a binding is named ["stop"]. *)
Lemma partial_values_valid e kwargs :
  validate_variable_names e = Ok e ->
  "stop" ∉ OD.keys kwargs ->
  validate_variable_names (partial_values e kwargs) = Ok (partial_values e kwargs).
Proof.
  intros Hvalid Hstop. apply validate_Ok_iff in Hvalid as (_ & Hiv & Hpv & Hdisj).
  apply validate_Ok_iff. split; [done|]. split; [|split].
  - rewrite elem_of_partial_input_variables. by intros [? _].
  - unfold partial_values. simpl. rewrite ODFacts.elem_of_keys_update. tauto.
  - intros x. rewrite elem_of_partial_input_variables.
    unfold partial_values. simpl. rewrite ODFacts.elem_of_keys_update.
    intros [Hx Hk] [Hx'|Hx']; [by apply (Hdisj x) | done].
Qed.

Lemma partial_values_stop e kwargs :
  validate_variable_names e = Ok e ->
  "stop" ∈ OD.keys kwargs ->
  validate_variable_names (partial_values e kwargs)
  = Err (ValueError
      [Lit "Cannot have an partial variable named 'stop', as it is used internally, please rename."]).
Proof.
  intros Hvalid Hstop. apply validate_Ok_iff in Hvalid as (_ & Hiv & _).
  unfold validate_variable_names. rewrite bool_decide_eq_false_2.
  - assert (OD.mem "stop" (partial_variables (partial_values e kwargs)) = true)
      as ->; [|done].
    apply ODFacts.mem_true. unfold partial_values. simpl.
    rewrite ODFacts.elem_of_keys_update. by right.
  - rewrite elem_of_partial_input_variables. by intros [? _].
Qed.

(** What a successful [partial] returns and the store it leaves. *)
Lemma partial_succeeds h self T b :
  load h self = Some T ->
  validate_variable_names (dict__ T) = Ok (dict__ T) ->
  "stop" ∉ OD.keys b ->
  partial self b h
  = (Ok (S (S (List.length h))),
     h ++ [Dict (partial_values (dict__ T) b);
           Dict (partial_values (dict__ T) b);
           Instance (type_ T) (S (List.length h))]).
Proof.
  intros Hload Hvalid Hstop. apply load_Some in Hload as (d & Hself & Hd).
  rewrite (partial_run h self (type_ T) d (dict__ T) b Hself Hd).
  by rewrite partial_values_valid.
Qed.

Lemma load_allocated h cls e1 e2 :
  load (h ++ [Dict e1; Dict e2; Instance cls (S (List.length h))])
       (S (S (List.length h)))
  = Some {| type_ := cls; dict__ := e2 |}.
Proof.
  unfold load. destruct (lookup_allocated h (Dict e1) (Dict e2)
                           (Instance cls (S (List.length h)))) as [Hd Hnew].
  by rewrite Hnew, Hd.
Qed.

Lemma load_old h (t : store World) self T :
  load h self = Some T -> load (h ++ t) self = Some T.
Proof.
  rewrite !load_Some. intros (d & Hself & Hd). exists d.
  split; by apply lookup_old.
Qed.
End partial_store.

(** ** Partial binding *)

Section partial_binding.
Context {World : Type} `{!SetOrder}.
Implicit Types (h : store World) (self : loc)
  (b : odict string (partial_variable World)) (T : BasePromptTemplate World).

(** C7: [partial] returns a new instance of the same class, held at an
    address and with a dictionary that the store did not have; its input
    variables are those of the original that are not bound, its partial
    variables those of the original overlaid by the bindings, its other
    fields those of the original. Whatever the outcome, every object of the
    store is left as it was, so the original has the fields it had. *)
Theorem partial_derives_new_instance h self T b :
  load h self = Some T ->
  (forall r h', partial self b h = (r, h') ->
     load h' self = Some T
     /\ forall l o, h !! l = Some o -> h' !! l = Some o)
  /\ (validate_variable_names (dict__ T) = Ok (dict__ T) ->
      "stop" ∉ OD.keys b ->
      exists new h' T',
        partial self b h = (Ok new, h')
        /\ h !! new = None
        /\ load h' new = Some T'
        /\ (forall d, dict_of h' new = Some d ->
              h !! d = None /\ dict_of h' self <> Some d)
        /\ type_ T' = type_ T
        /\ (forall x, x ∈ input_variables (dict__ T') <->
              x ∈ input_variables (dict__ T) /\ x ∉ OD.keys b)
        /\ partial_variables (dict__ T')
           = OD.update (partial_variables (dict__ T)) b
        /\ (OD.wf b -> forall k,
              OD.get k (partial_variables (dict__ T'))
              = match OD.get k b with
                | Some v => Some v
                | None => OD.get k (partial_variables (dict__ T))
                end)
        /\ formatters (dict__ T') = formatters (dict__ T)
        /\ output_parser (dict__ T') = output_parser (dict__ T)
        /\ own_fields (dict__ T') = own_fields (dict__ T)).
Proof.
  intros Hload. split.
  - intros r h' Hrun. pose proof Hload as Hload'.
    apply load_Some in Hload' as (d & Hself & Hd).
    rewrite (partial_run h self (type_ T) d (dict__ T) b Hself Hd) in Hrun.
    destruct (validate_variable_names (partial_values (dict__ T) b));
      injection Hrun as <- <-;
      (split; [by apply load_old | intros l o; apply lookup_old]).
  - intros Hvalid Hstop.
    eexists (S (S (List.length h))), _,
      {| type_ := type_ T; dict__ := partial_values (dict__ T) b |}.
    split; [by apply partial_succeeds|].
    split; [apply lookup_ge_None_2; lia|].
    split; [apply load_allocated|].
    split.
    { intros d. unfold dict_of.
      destruct (lookup_allocated h (Dict (partial_values (dict__ T) b))
                  (Dict (partial_values (dict__ T) b))
                  (Instance (type_ T) (S (List.length h)))) as [_ ->].
      intros [= <-]. split; [apply lookup_ge_None_2; lia|].
      apply load_Some in Hload as (d & Hself & Hd).
      rewrite (lookup_old _ _ _ _ Hself). intros [= ->].
      apply lookup_lt_Some in Hd. lia. }
    split; [done|].
    split; [apply elem_of_partial_input_variables|].
    split; [done|].
    split; [intros Hwf k; by apply ODFacts.get_update|].
    done.
Qed.

(** The input variables of the result of [partial], for every order of
    enumeration of sets. *)
Lemma partial_remaining_names h self T b :
  load h self = Some T ->
  validate_variable_names (dict__ T) = Ok (dict__ T) ->
  "stop" ∉ OD.keys b ->
  exists new h' T',
    partial self b h = (Ok new, h')
    /\ load h' new = Some T'
    /\ NoDup (input_variables (dict__ T'))
    /\ forall x, x ∈ input_variables (dict__ T') <->
         x ∈ input_variables (dict__ T) /\ x ∉ OD.keys b.
Proof.
  intros Hload Hvalid Hstop.
  eexists (S (S (List.length h))), _,
    {| type_ := type_ T; dict__ := partial_values (dict__ T) b |}.
  split; [by apply partial_succeeds|].
  split; [apply load_allocated|].
  split; [apply NoDup_set_iter | apply elem_of_partial_input_variables].
Qed.

(** C8, as the code has it: [partial] does not compare the binding keys with
    the declared input variables. With a key that is not declared it
    returns a template whose partial variables have that key, unless a key
    is ["stop"], which the validation at construction refuses. *)
Theorem partial_accepts_undeclared_key h self T b k :
  load h self = Some T ->
  validate_variable_names (dict__ T) = Ok (dict__ T) ->
  k ∈ OD.keys b ->
  k ∉ input_variables (dict__ T) ->
  ("stop" ∉ OD.keys b ->
     exists new h' T',
       partial self b h = (Ok new, h')
       /\ load h' new = Some T'
       /\ k ∈ OD.keys (partial_variables (dict__ T'))
       /\ forall x, x ∈ input_variables (dict__ T') <->
            x ∈ input_variables (dict__ T) /\ x ∉ OD.keys b)
  /\ ("stop" ∈ OD.keys b ->
      exists h',
        partial self b h
        = (Err (ValueError
             [Lit "Cannot have an partial variable named 'stop', as it is used internally, please rename."]),
           h')).
Proof.
  intros Hload Hvalid Hk Hundeclared. split.
  - intros Hstop.
    eexists (S (S (List.length h))), _,
      {| type_ := type_ T; dict__ := partial_values (dict__ T) b |}.
    split; [by apply partial_succeeds|].
    split; [apply load_allocated|].
    split; [|apply elem_of_partial_input_variables].
    simpl. apply ODFacts.elem_of_keys_update. by right.
  - intros Hstop. apply load_Some in Hload as (d & Hself & Hd).
    rewrite (partial_run h self (type_ T) d (dict__ T) b Hself Hd).
    rewrite partial_values_stop by done. by eexists.
Qed.

(** C2: binding [x] to a string with [partial] and then preparing the
    remaining variables gives what preparing the original template gives
    when [x] is supplied with that string together with the remaining
    variables: the same mapping, in the same order, with the same effects.
    The same holds for every renderer that formats the prepared variables. *)
Theorem partial_then_prepare h self T x s rest depth :
  load h self = Some T ->
  validate_variable_names (dict__ T) = Ok (dict__ T) ->
  x ∈ input_variables (dict__ T) ->
  exists new h' T',
    partial self [(x, PStr s)] h = (Ok new, h')
    /\ load h' new = Some T'
    /\ (forall w,
          _prepare_variables depth T' rest w
          = _prepare_variables depth T (OD.update [(x, VStr s)] rest) w)
    /\ (forall (render : odict string pyval -> odict string pyval -> St World string) w,
          (vars <- _prepare_variables depth T' rest ;;
           render (own_fields (dict__ T')) vars) w
          = (vars <- _prepare_variables depth T (OD.update [(x, VStr s)] rest) ;;
             render (own_fields (dict__ T)) vars) w).
Proof.
  intros Hload Hvalid Hx.
  pose proof Hvalid as Hvalid'.
  apply validate_Ok_iff in Hvalid' as (_ & Hiv & _ & Hdisj).
  assert (Hstop : "stop" ∉ OD.keys [(x, PStr s : partial_variable World)]).
  { unfold OD.keys. simpl. rewrite list_elem_of_singleton. by intros <-. }
  eexists (S (S (List.length h))), _,
    {| type_ := type_ T; dict__ := partial_values (dict__ T) [(x, PStr s)] |}.
  split; [by apply partial_succeeds|].
  split; [apply load_allocated|].
  assert (Hprep : forall w,
    _prepare_variables depth
      {| type_ := type_ T; dict__ := partial_values (dict__ T) [(x, PStr s)] |}
      rest w
    = _prepare_variables depth T (OD.update [(x, VStr s)] rest) w).
  { intros w. unfold _prepare_variables. simpl.
    rewrite ODFacts.set_fresh by by apply Hdisj.
    erewrite bind_cong_l; [|apply dict_comp_from_app].
    rewrite bind_assoc. apply bind_ext. intros resolved w'.
    rewrite <- (ODFacts.update_assoc resolved [(x, VStr s)] rest)
      by (unfold OD.wf; simpl; apply NoDup_singleton).
    reflexivity. }
  split; [exact Hprep|].
  intros render w. simpl. by apply bind_cong_l.
Qed.
End partial_binding.

(** ** The order of the remaining input variables *)

Lemma precedes_asym x y names :
  NoDup names -> precedes x y names -> ~ precedes y x names.
Proof.
  intros Hnd (i & j & Hij & Hi & Hj) (i' & j' & Hij' & Hi' & Hj').
  pose proof (NoDup_lookup _ _ _ _ Hnd Hi Hj').
  pose proof (NoDup_lookup _ _ _ _ Hnd Hj Hi'). lia.
Qed.

Lemma precedes_total x y names :
  x <> y -> x ∈ names -> y ∈ names ->
  precedes x y names \/ precedes y x names.
Proof.
  intros Hne Hx Hy.
  apply list_elem_of_lookup in Hx as [i Hi].
  apply list_elem_of_lookup in Hy as [j Hj].
  destruct (Nat.lt_trichotomy i j) as [Hlt|[->|Hlt]].
  - left. by exists i, j.
  - congruence.
  - right. by exists j, i.
Qed.

Lemma precedes_reverse x y names :
  precedes x y names -> precedes y x (reverse names).
Proof.
  intros (i & j & Hij & Hi & Hj).
  pose proof (lookup_lt_Some _ _ _ Hi) as Hli.
  pose proof (lookup_lt_Some _ _ _ Hj) as Hlj.
  exists (List.length names - S j), (List.length names - S i).
  split; [lia|]. split.
  - rewrite reverse_lookup by lia.
    replace (List.length names - S (List.length names - S j)) with j by lia.
    done.
  - rewrite reverse_lookup by lia.
    replace (List.length names - S (List.length names - S i)) with i by lia.
    done.
Qed.

(** The order of the remaining names is the order in which the set is
    enumerated: of two distinct remaining names, either one comes first
    under a suitable enumeration. *)
Lemma partial_order_chosen {World} (order0 : SetOrder)
    (h : store World) self T b x y :
  load h self = Some T ->
  @validate_variable_names World order0 (dict__ T) = Ok (dict__ T) ->
  "stop" ∉ OD.keys b ->
  x <> y ->
  x ∈ input_variables (dict__ T) -> y ∈ input_variables (dict__ T) ->
  x ∉ OD.keys b -> y ∉ OD.keys b ->
  exists (order : SetOrder) new h' T',
    @partial World order self b h = (Ok new, h')
    /\ load h' new = Some T'
    /\ precedes y x (input_variables (dict__ T'))
    /\ ~ precedes x y (input_variables (dict__ T')).
Proof.
  intros Hload Hvalid Hstop Hne Hx Hy Hxb Hyb.
  set (remaining := elements (set_of (input_variables (dict__ T))
                                ∖ set_of (OD.keys b))).
  assert (Hin : forall z, z ∈ input_variables (dict__ T) -> z ∉ OD.keys b ->
                          z ∈ remaining).
  { intros z Hz Hzb. unfold remaining, set_of.
    rewrite elem_of_elements, elem_of_difference, !elem_of_list_to_set.
    by split. }
  assert (Hnd : NoDup remaining) by apply NoDup_elements.
  assert (Hrun : forall order : SetOrder,
    exists new h' T',
      @partial World order self b h = (Ok new, h')
      /\ load h' new = Some T'
      /\ input_variables (dict__ T')
         = @set_iter order (set_of (input_variables (dict__ T))
                              ∖ set_of (OD.keys b))).
  { intros order.
    eexists (S (S (List.length h))), _,
      {| type_ := type_ T; dict__ := @partial_values _ order (dict__ T) b |}.
    split; [|split; [apply load_allocated | reflexivity]].
    apply (@partial_succeeds _ order); [done | | done].
    apply (@validate_Ok_iff _ order).
    by apply (@validate_Ok_iff _ order0) in Hvalid. }
  destruct (precedes_total x y remaining Hne (Hin x Hx Hxb) (Hin y Hy Hyb))
    as [Hxy|Hyx].
  - destruct (Hrun Demo.descending) as (new & h' & T' & Hp & Hl & Hiv).
    exists Demo.descending, new, h', T'. split; [done|]. split; [done|].
    rewrite Hiv. simpl. fold remaining. split.
    + by apply precedes_reverse.
    + apply precedes_asym; [by rewrite reverse_Permutation|].
      by apply precedes_reverse.
  - destruct (Hrun Demo.ascending) as (new & h' & T' & Hp & Hl & Hiv).
    exists Demo.ascending, new, h', T'. split; [done|]. split; [done|].
    rewrite Hiv. simpl. fold remaining. split; [done|].
    by apply precedes_asym.
Qed.

(** C10: the input variables of the result of [partial] are, as a set, those
    of the original minus the bound names, each once, however the set is
    enumerated. Their order is the order in which the set is enumerated and
    not the declared one: for every template and any two distinct names that
    remain, there is an enumeration under which [partial] lists the second
    before the first and not the first before the second; and there are a
    template whose input variables are pairwise distinct, bindings and an
    enumeration for which the result is not the declared list without the
    bound names, two names that are declared in one order only coming out
    in the opposite order only. *)
Theorem partial_input_variables_unordered :
  (forall World (order : SetOrder) (h : store World) self T b,
     load h self = Some T ->
     validate_variable_names (dict__ T) = Ok (dict__ T) ->
     "stop" ∉ OD.keys b ->
     exists new h' T',
       partial self b h = (Ok new, h')
       /\ load h' new = Some T'
       /\ NoDup (input_variables (dict__ T'))
       /\ forall x, x ∈ input_variables (dict__ T') <->
            x ∈ input_variables (dict__ T) /\ x ∉ OD.keys b)
  /\ (forall World (order0 : SetOrder) (h : store World) self T b x y,
        load h self = Some T ->
        @validate_variable_names World order0 (dict__ T) = Ok (dict__ T) ->
        "stop" ∉ OD.keys b ->
        x <> y ->
        x ∈ input_variables (dict__ T) -> y ∈ input_variables (dict__ T) ->
        x ∉ OD.keys b -> y ∉ OD.keys b ->
        exists (order : SetOrder) new h' T',
          @partial World order self b h = (Ok new, h')
          /\ load h' new = Some T'
          /\ precedes y x (input_variables (dict__ T'))
          /\ ~ precedes x y (input_variables (dict__ T')))
  /\ (exists World (order : SetOrder) (h : store World) self T b new h' T' x y,
        load h self = Some T
        /\ validate_variable_names (dict__ T) = Ok (dict__ T)
        /\ NoDup (input_variables (dict__ T))
        /\ partial self b h = (Ok new, h')
        /\ load h' new = Some T'
        /\ x <> y
        /\ precedes x y (input_variables (dict__ T))
        /\ ~ precedes y x (input_variables (dict__ T))
        /\ precedes y x (input_variables (dict__ T'))
        /\ ~ precedes x y (input_variables (dict__ T'))
        /\ input_variables (dict__ T')
           <> filter (fun name => name ∉ OD.keys b) (input_variables (dict__ T))).
Proof.
  split; [|split].
  - intros World order h self T b. apply partial_remaining_names.
  - intros World order0 h self T b x y. apply partial_order_chosen.
  - assert (Hab : NoDup ["a"; "b"; "c"]).
    { repeat (apply NoDup_cons; split; [list_not_in|]). apply NoDup_nil_2. }
    assert (Hba : NoDup ["b"; "a"]).
    { repeat (apply NoDup_cons; split; [list_not_in|]). apply NoDup_nil_2. }
    assert (Hiv : input_variables
                    (@partial_values Demo.world Demo.descending
                       (dict__ Demo.T_ab) [("c", PStr "foo")])
                  = ["b"; "a"]) by (vm_compute; reflexivity).
    exists Demo.world, Demo.descending, Demo.h0, 1, Demo.T_ab,
      [("c", PStr "foo")].
    eexists (S (S (List.length Demo.h0))), _,
      {| type_ := type_ Demo.T_ab;
         dict__ := @partial_values _ Demo.descending (dict__ Demo.T_ab)
                     [("c", PStr "foo")] |},
      "a", "b".
    split; [reflexivity|]. split; [vm_compute; reflexivity|].
    split; [exact Hab|].
    split.
    { apply (@partial_succeeds _ Demo.descending);
        [reflexivity | vm_compute; reflexivity | list_not_in]. }
    split; [apply load_allocated|].
    split; [done|].
    assert (Hdecl : precedes "a" "b" ["a"; "b"; "c"]).
    { exists 0, 1. split; [lia|]. split; reflexivity. }
    assert (Hres : precedes "b" "a" ["b"; "a"]).
    { exists 0, 1. split; [lia|]. split; reflexivity. }
    split; [exact Hdecl|].
    split; [by apply precedes_asym|].
    cbn [dict__]. rewrite Hiv.
    split; [exact Hres|].
    split; [by apply precedes_asym|].
    vm_compute. discriminate.
Qed.

(** [partial] binding ["who"] on a template that already has a literal and
    a produced partial variable, then preparation with the document; and
    preparation of the original with ["who"] supplied. *)
Lemma partial_then_prepare_witness :
  (exists new h' T',
     @partial _ Demo.ascending 1 [("who", PStr "world")] Demo.h1 = (Ok new, h')
     /\ load h' new = Some T'
     /\ _prepare_variables 2 T' [("doc", VDocument "text" [])] Demo.w0
        = _prepare_variables 2 Demo.T_partial
            (OD.update [("who", VStr "world")] [("doc", VDocument "text" [])])
            Demo.w0)
  /\ _prepare_variables 2 Demo.T_partial
       (OD.update [("who", VStr "world")] [("doc", VDocument "text" [])]) Demo.w0
     = (Ok [("greeting", VStr "hello"); ("now", VInt 7);
            ("who", VStr "world"); ("doc", VStr "text")],
        {| Demo.clock := 8; Demo.dirs := []; Demo.files := [] |}).
Proof.
  split; [|reflexivity].
  destruct (@partial_then_prepare _ Demo.ascending Demo.h1 1 Demo.T_partial
              "who" "world" [("doc", VDocument "text" [])] 2)
    as (new & h' & T' & Hrun & Hload & Hprep & _);
    [reflexivity | vm_compute; reflexivity | right; by left |].
  exists new, h', T'. split; [exact Hrun|]. split; [exact Hload | apply Hprep].
Defined.

Lemma partial_derives_new_instance_witness :
  (forall r h',
     @partial _ Demo.ascending 1 [("c", PStr "foo")] Demo.h0 = (r, h') ->
     load h' 1 = Some Demo.T_ab)
  /\ exists new h' T',
       @partial _ Demo.ascending 1 [("c", PStr "foo")] Demo.h0 = (Ok new, h')
       /\ load h' new = Some T'
       /\ type_ T' = Demo.JoinTemplate
       /\ ("a" ∈ input_variables (dict__ T'))
       /\ ("c" ∉ input_variables (dict__ T'))
       /\ OD.keys (partial_variables (dict__ T')) = ["c"]
       /\ output_parser (dict__ T') = Some (OutputParser "parser").
Proof.
  destruct (@partial_derives_new_instance _ Demo.ascending Demo.h0 1 Demo.T_ab
              [("c", PStr "foo")]) as [Hframe Hnew]; [reflexivity|].
  split.
  - intros r h' Hrun. by destruct (Hframe r h' Hrun).
  - destruct Hnew as (new & h' & T' & Hrun & _ & Hload & _ & Hty & Hiv & Hpv
                      & _ & _ & Hparser & _);
      [vm_compute; reflexivity | list_not_in |].
    exists new, h', T'. split; [exact Hrun|]. split; [exact Hload|].
    split; [exact Hty|]. split; [apply Hiv; split; [by left | list_not_in]|].
    split; [rewrite Hiv; intros [_ Hc]; apply Hc; by left|].
    split; [by rewrite Hpv | exact Hparser].
Defined.

(** C8 as stated fails: ["z"] is not an input variable of [T_ab], and
    [partial] binding ["z"] returns a template, with ["z"] among its partial
    variables. *)
Lemma partial_undeclared_key_counterexample :
  load Demo.h0 1 = Some Demo.T_ab
  /\ ("z" ∉ input_variables (dict__ Demo.T_ab))
  /\ fst (@partial _ Demo.ascending 1 [("z", PStr "foo")] Demo.h0) = Ok 4
  /\ (fun T => OD.keys (partial_variables (dict__ T)))
       <$> load (snd (@partial _ Demo.ascending 1 [("z", PStr "foo")] Demo.h0)) 4
     = Some ["z"].
Proof.
  split; [reflexivity|]. split; [list_not_in|].
  split; vm_compute; reflexivity.
Qed.

Lemma partial_accepts_undeclared_key_witness :
  (exists new h' T',
     @partial _ Demo.ascending 1 [("z", PStr "foo")] Demo.h0 = (Ok new, h')
     /\ load h' new = Some T'
     /\ "z" ∈ OD.keys (partial_variables (dict__ T')))
  /\ (exists h',
        @partial _ Demo.ascending 1 [("stop", PStr "foo")] Demo.h0
        = (Err (ValueError
             [Lit "Cannot have an partial variable named 'stop', as it is used internally, please rename."]),
           h')).
Proof.
  split.
  - destruct (proj1 (@partial_accepts_undeclared_key _ Demo.ascending Demo.h0 1
                       Demo.T_ab [("z", PStr "foo")] "z"
                       eq_refl eq_refl ltac:(by left) ltac:(list_not_in)))
      as (new & h' & T' & Hrun & Hload & Hz & _); [list_not_in|].
    by exists new, h', T'.
  - apply (proj2 (@partial_accepts_undeclared_key _ Demo.ascending Demo.h0 1
                    Demo.T_ab [("stop", PStr "foo")] "stop"
                    eq_refl eq_refl ltac:(by left) ltac:(list_not_in))).
    by left.
Defined.

(** [T_ab] with ["b"] bound: the remaining names under the descending
    enumeration, and an enumeration that lists ["c"] before ["a"]. *)
Lemma partial_input_variables_unordered_witness :
  (exists new h' T',
     @partial _ Demo.descending 1 [("b", PStr "foo")] Demo.h0 = (Ok new, h')
     /\ load h' new = Some T'
     /\ forall x, x ∈ input_variables (dict__ T') <->
          x ∈ ["a"; "b"; "c"] /\ x ∉ ["b"])
  /\ (exists (order : SetOrder) new h' T',
        @partial _ order 1 [("b", PStr "foo")] Demo.h0 = (Ok new, h')
        /\ load h' new = Some T'
        /\ precedes "c" "a" (input_variables (dict__ T'))
        /\ ~ precedes "a" "c" (input_variables (dict__ T'))).
Proof.
  split.
  - destruct (proj1 partial_input_variables_unordered Demo.world Demo.descending
                Demo.h0 1 Demo.T_ab [("b", PStr "foo")])
      as (new & h' & T' & Hrun & Hload & _ & Hiv);
      [reflexivity | vm_compute; reflexivity | list_not_in |].
    by exists new, h', T'.
  - apply (proj1 (proj2 partial_input_variables_unordered) Demo.world
             Demo.ascending Demo.h0 1 Demo.T_ab [("b", PStr "foo")] "a" "c");
      [reflexivity | vm_compute; reflexivity | list_not_in | done
      | by left | right; right; by left | list_not_in | list_not_in].
Defined.

(** ** Saving *)

Section saving.
Context {World : Type} `{!OS World} `{!Serializable World}.
Implicit Types (self : BasePromptTemplate World) (file_path : string).

Lemma dict_Ok self d0 kind :
  super_dict self = Ok d0 ->
  "formatters" ∈ OD.keys d0 ->
  _prompt_type self = Ok kind ->
  dict self = Ok (OD.set "_type" (FType kind) (OD.del "formatters" d0)).
Proof.
  intros Hsuper Hin Hkind. unfold dict. rewrite Hsuper.
  apply ODFacts.mem_true in Hin. by rewrite Hin, Hkind.
Qed.

(** The three ways [dict] fails, in the order of its statements *)
Lemma dict_Err self e :
  dict self = Err e <->
  super_dict self = Err e
  \/ (exists d0, super_dict self = Ok d0 /\ ("formatters" ∉ OD.keys d0)
                 /\ e = KeyError "formatters")
  \/ (exists d0, super_dict self = Ok d0 /\ "formatters" ∈ OD.keys d0
                 /\ _prompt_type self = Err e).
Proof.
  unfold dict. destruct (super_dict self) as [d0|e0] eqn:Hsuper.
  - destruct (OD.mem "formatters" d0) eqn:Hmem.
    + apply ODFacts.mem_true in Hmem.
      destruct (_prompt_type self) as [kind|e1] eqn:Hkind.
      * split; [done|].
        intros [[=]|[(d1 & [= <-] & Hout & _)|(d1 & _ & _ & [=])]]. done.
      * split.
        -- intros [= <-]. right. right. by exists d0.
        -- intros [[=]|[(d1 & [= <-] & Hout & _)|(d1 & _ & _ & [= <-])]]; done.
    + apply ODFacts.mem_false in Hmem. split.
      * intros [= <-]. right. left. by exists d0.
      * intros [[=]|[(d1 & _ & _ & ->)|(d1 & [= <-] & Hin & _)]]; done.
  - split.
    + intros [= <-]. by left.
    + intros [[= <-]|[(d1 & [=] & _)|(d1 & [=] & _)]]. done.
Qed.

(** C9, as the code has it: with partial variables bound [save] raises
    before it does anything, whatever the path. Without partial variables
    and with a suffix other than [.json] and [.yaml] it fails, having done
    nothing but create the parent directory: the target is not opened. The
    error is the [ValueError] that names the path and the two formats when
    the directory could be created and [dict] returned the dictionary;
    otherwise it is the error of the step that failed. [dict] fails with
    the error of [super().dict()] when that raises, with [KeyError] when
    the dictionary it returns has no entry ["formatters"], and with the
    error of [_prompt_type] when that raises. *)
Theorem save_failures self file_path :
  (partial_variables (dict__ self) <> [] ->
   forall w, save self file_path w
             = (Err (ValueError [Lit "Cannot save prompt with partial variables."]), w))
  /\ (partial_variables (dict__ self) = [] ->
      path_suffix file_path <> ".json" ->
      path_suffix file_path <> ".yaml" ->
      forall w,
        (exists e, save self file_path w
                   = (Err e, snd (mkdir_parents (path_parent file_path) w)))
        /\ (forall w' prompt_dict,
              mkdir_parents (path_parent file_path) w = (Ok tt, w') ->
              dict self = Ok prompt_dict ->
              save self file_path w
              = (Err (ValueError [FmtPath file_path; Lit " must be json or yaml"]),
                 w'))
        /\ (forall e w',
              mkdir_parents (path_parent file_path) w = (Err e, w') ->
              save self file_path w = (Err e, w'))
        /\ (forall w' e,
              mkdir_parents (path_parent file_path) w = (Ok tt, w') ->
              dict self = Err e ->
              save self file_path w = (Err e, w')))
  /\ (forall e,
        dict self = Err e <->
        super_dict self = Err e
        \/ (exists d0, super_dict self = Ok d0 /\ ("formatters" ∉ OD.keys d0)
                       /\ e = KeyError "formatters")
        \/ (exists d0, super_dict self = Ok d0 /\ "formatters" ∈ OD.keys d0
                       /\ _prompt_type self = Err e)).
Proof.
  split; [|split].
  - intros Hpartial w. unfold save. by rewrite bool_decide_eq_true_2.
  - intros Hnone Hjson Hyaml w. unfold save.
    rewrite bool_decide_eq_false_2 by (by intros ?).
    unfold bind, lift.
    destruct (mkdir_parents (path_parent file_path) w) as [[[]|e] w'] eqn:Hmk;
      simpl.
    + destruct (dict self) as [prompt_dict|e] eqn:Hdict.
      * rewrite !decide_False by done.
        split; [by eexists|]. split; [|split].
        -- by intros ? ? [= <-] _.
        -- by intros ? ? [=].
        -- by intros ? ? _ [=].
      * split; [by eexists|]. split; [|split].
        -- by intros ? ? _ [=].
        -- by intros ? ? [=].
        -- by intros ? ? [= <-] [= <-].
    + split; [by eexists|]. split; [|split].
      * by intros ? ? [=].
      * by intros ? ? [= <- <-].
      * by intros ? ? [=].
  - apply dict_Err.
Qed.
End saving.

(** C9 as stated fails: the template has no partial variables and no output
    parser, the path ends in [.txt], and [save] fails with
    [NotImplementedError], raised by the inherited [_prompt_type], not with
    the error about the extension. *)
Lemma save_extension_error_counterexample :
  partial_variables (dict__ Demo.T_bare) = []
  /\ output_parser (dict__ Demo.T_bare) = None
  /\ _prompt_type Demo.T_bare = Err NotImplementedError
  /\ path_suffix "prompts/out.txt" = ".txt"
  /\ save Demo.T_bare "prompts/out.txt" Demo.w0
     = (Err NotImplementedError,
        {| Demo.clock := 7; Demo.dirs := ["prompts"]; Demo.files := [] |}).
Proof. repeat split. Qed.

(** With a partial variable the [.json] path is refused; a class that
    defines [_prompt_type] gets the error about the extension on a [.txt]
    path; with an output parser whose class defines no [_type] the error on
    that path is the one of [super().dict()]. *)
Lemma save_failures_witness :
  save Demo.T_partial "prompts/out.json" Demo.w0
    = (Err (ValueError [Lit "Cannot save prompt with partial variables."]),
       Demo.w0)
  /\ save Demo.T_ab "prompts/out.txt" Demo.w0
     = (Err (ValueError [FmtPath "prompts/out.txt"; Lit " must be json or yaml"]),
        {| Demo.clock := 7; Demo.dirs := ["prompts"]; Demo.files := [] |})
  /\ save Demo.T_untyped "prompts/out.txt" Demo.w0
     = (Err NotImplementedError,
        {| Demo.clock := 7; Demo.dirs := ["prompts"]; Demo.files := [] |}).
Proof.
  assert (Hjson : path_suffix "prompts/out.txt" <> ".json")
    by (vm_compute; discriminate).
  assert (Hyaml : path_suffix "prompts/out.txt" <> ".yaml")
    by (vm_compute; discriminate).
  split; [|split].
  - apply (proj1 (save_failures Demo.T_partial "prompts/out.json")).
    simpl. discriminate.
  - destruct (proj1 (proj2 (save_failures Demo.T_ab "prompts/out.txt"))
                eq_refl Hjson Hyaml Demo.w0) as (_ & Hsave & _).
    eapply Hsave; reflexivity.
  - destruct (proj1 (proj2 (save_failures Demo.T_untyped "prompts/out.txt"))
                eq_refl Hjson Hyaml Demo.w0) as (_ & _ & _ & Hsave).
    apply Hsave; [reflexivity|].
    apply (proj2 (save_failures Demo.T_untyped "prompts/out.txt")).
    by left.
Defined.

(** * Further properties of the code *)

(** ** The default registry *)

Section default_registry.
Context {World : Type}.
Implicit Types (v e : pyval) (depth : nat) (w : World).

Local Abbreviation DEFAULT := (PROMPT_DEFAULT_FORMATTERS (World := World)).

(** The outcome of formatting a value when [budget] levels of nesting are
    allowed. *)
Local Abbreviation outcome budget needed out :=
  (if decide (needed <= budget) then Ok out else Err RecursionError).

Lemma default_list_unfold depth items :
  _format_value depth DEFAULT (VList items)
  = (out <- list_comp (bound_format_value depth DEFAULT) items ;; ret (VList out)).
Proof. by destruct depth. Qed.

Lemma default_dict_unfold depth items :
  _format_value depth DEFAULT (VDict items)
  = (out <- dict_comp fst (fun kv => bound_format_value depth DEFAULT kv.2) items ;;
     ret (VDict out)).
Proof. by destruct depth. Qed.

Lemma list_comp_outcome (f : pyval -> St World pyval) depth items w :
  (forall e w', plain e ->
     f e w' = (outcome depth (S (height e)) (render_default e), w')) ->
  foldr (fun e acc => plain e /\ acc) True items ->
  list_comp f items w
  = (outcome depth (foldr (fun e acc => Nat.max (S (height e)) acc) 0 items)
       (map render_default items), w).
Proof.
  intros Hf. induction items as [|a items IH]; cbn [foldr map list_comp].
  - intros _. unfold ret. destruct (decide (0 <= depth)); [done | lia].
  - intros [Ha Hitems]. specialize (IH Hitems).
    unfold bind at 1. rewrite (Hf a w Ha).
    revert IH. generalize (foldr (fun e acc => Nat.max (S (height e)) acc) 0 items).
    intros rest IH.
    destruct (decide (S (height a) <= depth));
      [unfold bind; rewrite IH; unfold ret; destruct (decide (rest <= depth))|];
      destruct (decide (Nat.max (S (height a)) rest <= depth)); (done || lia).
Qed.

Lemma traverse_values_outcome (f : pyval -> St World pyval) depth
    (items : list (string * pyval)) w :
  (forall e w', plain e ->
     f e w' = (outcome depth (S (height e)) (render_default e), w')) ->
  foldr (fun kv acc => plain kv.2 /\ acc) True items ->
  traverse_values f items w
  = (outcome depth (foldr (fun kv acc => Nat.max (S (height kv.2)) acc) 0 items)
       (map (fun kv => (kv.1, render_default kv.2)) items), w).
Proof.
  intros Hf. induction items as [|[k a] items IH];
    cbn [foldr map traverse_values fst snd].
  - intros _. unfold ret. destruct (decide (0 <= depth)); [done | lia].
  - intros [Ha Hitems]. specialize (IH Hitems).
    unfold bind at 1. rewrite (Hf a w Ha).
    revert IH. generalize (foldr (fun kv acc => Nat.max (S (height kv.2)) acc) 0 items).
    intros rest IH.
    destruct (decide (S (height a) <= depth));
      [unfold bind; rewrite IH; unfold ret; destruct (decide (rest <= depth))|];
      destruct (decide (Nat.max (S (height a)) rest <= depth)); (done || lia).
Qed.

(** What a nested call does, given what the call one level down does. *)
Lemma bound_default_outcome depth :
  (forall depth', depth = S depth' -> forall e w, plain e ->
     _format_value depth' DEFAULT e w
     = (outcome depth' (height e) (render_default e), w)) ->
  forall e w, plain e ->
    bound_format_value depth DEFAULT e w
    = (outcome depth (S (height e)) (render_default e), w).
Proof.
  intros IH e w He. destruct depth as [|depth'].
  - unfold bound_format_value, nested_call, raise.
    destruct (decide (S (height e) <= 0)); [lia | done].
  - unfold bound_format_value, nested_call. rewrite (IH depth' eq_refl e w He).
    destruct (decide (height e <= depth'));
      destruct (decide (S (height e) <= S depth')); (done || lia).
Qed.

(** The default registry on plain values, at every depth. *)
Lemma default_outcome depth v w :
  plain v ->
  _format_value depth DEFAULT v w
  = (outcome depth (height v) (render_default v), w).
Proof.
  revert v w. induction depth as [depth IH] using lt_wf_ind. intros v w Hplain.
  assert (Hcb : forall e w', plain e ->
            bound_format_value depth DEFAULT e w'
            = (outcome depth (S (height e)) (render_default e), w')).
  { apply bound_default_outcome. intros depth' -> e w' He. apply IH; [lia|done]. }
  destruct v; cbn [height render_default].
  1-4, 7: destruct (decide (0 <= depth)); [by destruct depth | lia].
  - rewrite default_list_unfold. unfold bind.
    rewrite (list_comp_outcome _ depth items w Hcb Hplain).
    by destruct (decide _).
  - destruct Hplain as [Hkeys Hplain]. rewrite default_dict_unfold.
    unfold bind.
    rewrite (dict_comp_traverse (bound_format_value depth DEFAULT)) by done.
    rewrite (traverse_values_outcome _ depth items w Hcb Hplain).
    by destruct (decide _).
  - done.
Qed.
Lemma rendered_list_well bound items :
  (forall e, S (height e) <= bound -> plain e -> rendered_well e) ->
  foldr (fun e acc => Nat.max (S (height e)) acc) 0 items <= bound ->
  foldr (fun e acc => plain e /\ acc) True items ->
  foldr (fun e acc => plain e /\ acc) True (map render_default items)
  /\ foldr (fun e acc => Nat.max (S (height e)) acc) 0 (map render_default items)
     = foldr (fun e acc => Nat.max (S (height e)) acc) 0 items
  /\ map render_default (map render_default items) = map render_default items.
Proof.
  intros Helem. induction items as [|a items IH]; cbn [foldr map]; [done|].
  intros Hbound [Ha Hitems].
  destruct (Helem a) as (Hp & Hh & Hr); [lia | done |].
  destruct IH as (IHp & IHh & IHr); [lia | done |].
  split; [done|]. split; [by rewrite Hh, IHh | by rewrite Hr, IHr].
Qed.

Lemma rendered_dict_well bound (items : list (string * pyval)) :
  (forall e, S (height e) <= bound -> plain e -> rendered_well e) ->
  foldr (fun kv acc => Nat.max (S (height kv.2)) acc) 0 items <= bound ->
  foldr (fun kv acc => plain kv.2 /\ acc) True items ->
  foldr (fun kv acc => plain kv.2 /\ acc) True
    (map (fun kv => (kv.1, render_default kv.2)) items)
  /\ foldr (fun kv acc => Nat.max (S (height kv.2)) acc) 0
       (map (fun kv => (kv.1, render_default kv.2)) items)
     = foldr (fun kv acc => Nat.max (S (height kv.2)) acc) 0 items
  /\ map (fun kv => (kv.1, render_default kv.2))
       (map (fun kv => (kv.1, render_default kv.2)) items)
     = map (fun kv => (kv.1, render_default kv.2)) items
  /\ (map (fun kv => (kv.1, render_default kv.2)) items).*1 = items.*1.
Proof.
  intros Helem. induction items as [|[k a] items IH];
    cbn [foldr map fst snd]; [done|].
  intros Hbound [Ha Hitems].
  destruct (Helem a) as (Hp & Hh & Hr); [lia | done |].
  destruct IH as (IHp & IHh & IHr & IHk); [lia | done |].
  split; [done|]. split; [by rewrite Hh, IHh|].
  split; [by rewrite Hr, IHr|]. csimpl. f_equal. exact IHk.
Qed.

Lemma rendered_well_all v : plain v -> rendered_well v.
Proof.
  remember (height v) as n eqn:Hn. revert v Hn.
  induction n as [n IH] using lt_wf_ind. intros v Hn Hplain.
  assert (Helem : forall e, S (height e) <= n -> plain e -> rendered_well e).
  { intros e He Hpe. apply (IH (height e)); [lia | done | done]. }
  destruct v; try done.
  - cbn [height] in Hn.
    destruct (rendered_list_well n items Helem) as (Hp & Hh & Hr);
      [lia | done |].
    unfold rendered_well. cbn [render_default height plain].
    split; [done|]. split; [done|]. by rewrite Hr.
  - cbn [height] in Hn. destruct Hplain as [Hkeys Hplain].
    destruct (rendered_dict_well n items Helem) as (Hp & Hh & Hr & Hk);
      [lia | done |].
    unfold rendered_well. cbn [render_default height plain].
    split; [by rewrite Hk|]. split; [done|]. by rewrite Hr.
Qed.

(** X1: under the default registry a value made of built-in values and
    documents is formatted without any effect on the outside world: when
    its containers are nested no deeper than the calls allowed, the result
    is the value with every document replaced by its [page_content], lists
    and mappings keeping their shape and order; when they are nested deeper,
    the result is [RecursionError]. *)
Theorem default_registry_renders v depth w :
  plain v ->
  (height v <= depth ->
     _format_value depth DEFAULT v w = (Ok (render_default v), w))
  /\ (depth < height v ->
      _format_value depth DEFAULT v w = (Err RecursionError, w)).
Proof.
  intros Hplain. rewrite (default_outcome depth v w Hplain).
  split; intros Hd; destruct (decide (height v <= depth)); (done || lia).
Qed.

(** X2: formatting with the default registry is idempotent: the value it
    returns is returned unchanged when it is formatted again. *)
Theorem default_formatting_idempotent v depth w :
  plain v -> height v <= depth ->
  exists out,
    _format_value depth DEFAULT v w = (Ok out, w)
    /\ _format_value depth DEFAULT out w = (Ok out, w).
Proof.
  intros Hplain Hdepth. exists (render_default v).
  destruct (rendered_well_all v Hplain) as (Hp & Hh & Hr).
  rewrite (default_outcome depth v w Hplain).
  rewrite (default_outcome depth (render_default v) w Hp), Hh, Hr.
  by destruct (decide (height v <= depth)).
Qed.

(** X3: an instance of a class that derives from [Document], at any
    distance, is formatted by the default registry to its [page_content],
    at every depth. *)
Theorem default_formats_document_subclass name base state text depth :
  issubclass base TDocument = true ->
  page_content_of state = Some text ->
  _format_value depth DEFAULT (VInstance name base state) = ret (VStr text).
Proof.
  intros Hsub Htext.
  assert (Hfind : List.find (fun entry => isinstance (VInstance name base state) entry.1)
                    DEFAULT = Some (TDocument, attrgetter_page_content)).
  { cbn [List.find PROMPT_DEFAULT_FORMATTERS fst]. unfold isinstance.
    cbn [type_of issubclass]. by rewrite decide_False, Hsub by done. }
  destruct depth; cbn [_format_value]; cbn [OD.get PROMPT_DEFAULT_FORMATTERS type_of];
    rewrite !decide_False by done; rewrite Hfind;
    unfold _apply_formatter_body; cbn; by rewrite Htext.
Qed.
End default_registry.

Lemma plain_nested : plain Demo.nested.
Proof.
  split; [|done]. simpl. repeat (apply NoDup_cons; split; [list_not_in|]).
  apply NoDup_nil_2.
Qed.

Lemma default_registry_renders_witness :
  _format_value 2 PROMPT_DEFAULT_FORMATTERS Demo.nested Demo.w0
    = (Ok (VDict [("docs", VList [VStr "first"; VStr "second"]); ("n", VInt 3)]),
       Demo.w0)
  /\ _format_value 1 PROMPT_DEFAULT_FORMATTERS Demo.nested Demo.w0
     = (Err RecursionError, Demo.w0).
Proof.
  split.
  - apply (proj1 (default_registry_renders Demo.nested 2 Demo.w0 plain_nested)).
    simpl. lia.
  - apply (proj2 (default_registry_renders Demo.nested 1 Demo.w0 plain_nested)).
    simpl. lia.
Defined.

Lemma default_formatting_idempotent_witness :
  exists out,
    _format_value 2 PROMPT_DEFAULT_FORMATTERS Demo.nested Demo.w0 = (Ok out, Demo.w0)
    /\ _format_value 2 PROMPT_DEFAULT_FORMATTERS out Demo.w0 = (Ok out, Demo.w0).
Proof.
  apply (default_formatting_idempotent Demo.nested 2 Demo.w0 plain_nested).
  simpl. lia.
Defined.

Lemma default_formats_document_subclass_witness :
  _format_value 0 PROMPT_DEFAULT_FORMATTERS
    (VInstance "Summary" Demo.Chunk (VDocument "short" [])) Demo.w0
  = (Ok (VStr "short"), Demo.w0).
Proof.
  by rewrite (default_formats_document_subclass (World := Demo.world)
                "Summary" Demo.Chunk (VDocument "short" []) "short" 0
                eq_refl eq_refl).
Defined.

(** ** More on variable preparation *)

Section more_preparation.
Context {World : Type}.
Implicit Types (self : BasePromptTemplate World) (supplied : odict string pyval)
  (depth : nat) (w : World).

Lemma keys_cons {V} k (v : V) (d : odict string V) :
  OD.keys ((k, v) :: d) = k :: OD.keys d.
Proof. done. Qed.

Lemma keys_app {V} (a d : odict string V) :
  OD.keys (a ++ d) = OD.keys a ++ OD.keys d.
Proof. unfold OD.keys. apply fmap_app. Qed.

Lemma keys_update {V} (a d : odict string V) :
  OD.keys (OD.update a d)
  = OD.keys a ++ first_occurrences_from (OD.keys a) (OD.keys d).
Proof.
  revert a. induction d as [|[k v] d IH]; intros a.
  - rewrite ODFacts.update_nil. cbn. by rewrite app_nil_r.
  - rewrite ODFacts.update_cons, IH, keys_cons. cbn [first_occurrences_from].
    destruct (decide (k ∈ OD.keys a)) as [Hin|Hnin].
    + by rewrite ODFacts.keys_set_in.
    + rewrite ODFacts.set_fresh by done. rewrite keys_app, keys_cons.
      by rewrite <- app_assoc.
Qed.

Lemma update_fresh {V} (a d : odict string V) :
  NoDup (OD.keys a ++ OD.keys d) -> OD.update a d = a ++ d.
Proof.
  revert a. induction d as [|[k v] d IH]; intros a Hnd.
  - by rewrite ODFacts.update_nil, app_nil_r.
  - rewrite keys_cons in Hnd.
    apply NoDup_app in Hnd as (Ha & Hdisj & Hd).
    apply NoDup_cons in Hd as [Hk Hd].
    rewrite ODFacts.update_cons, ODFacts.set_fresh.
    + rewrite IH; [by rewrite <- app_assoc|].
      rewrite keys_app, keys_cons, <- app_assoc. simpl.
      apply NoDup_app. split; [done|]. split.
      * intros x Hx Hx'. apply (Hdisj x Hx). exact Hx'.
      * by apply NoDup_cons.
    + intros Hin. apply (Hdisj k Hin). by left.
Qed.

Lemma traverse_values_app {A B} (f : A -> St World B) (d1 d2 : odict string A) w :
  traverse_values f (d1 ++ d2) w
  = (r1 <- traverse_values f d1 ;; r2 <- traverse_values f d2 ;; ret (r1 ++ r2)) w.
Proof.
  revert w. induction d1 as [|[k a] d1 IH]; intros w; simpl.
  - unfold bind, ret. by destruct (traverse_values f d2 w) as [[r|e] w'].
  - unfold bind, ret. destruct (f a w) as [[b|e] w1]; [|done].
    specialize (IH w1). unfold bind, ret in IH. rewrite IH.
    destruct (traverse_values f d1 w1) as [[r1|e] w2]; [|done].
    by destruct (traverse_values f d2 w2) as [[r2|e] w3].
Qed.

Lemma traverse_values_pure {A B} (f : A -> St World B) (g : A -> B)
    (d : odict string A) w :
  (forall k a, (k, a) ∈ d -> forall w', f a w' = (Ok (g a), w')) ->
  traverse_values f d w = (Ok (map (fun kv => (kv.1, g kv.2)) d), w).
Proof.
  induction d as [|[k a] d IH]; intros Hf; [done|].
  simpl. unfold bind at 1. rewrite (Hf k a) by by left.
  unfold bind. rewrite IH; [done|].
  intros k' a' Hin. apply (Hf k' a'). by right.
Qed.

(** Preparation as its three steps (no key twice among the partial
    variables). *)
Lemma prepare_as_steps depth self supplied w :
  OD.wf (partial_variables (dict__ self)) ->
  _prepare_variables depth self supplied w
  = prepare_variables_steps depth self supplied w.
Proof.
  intros Hwf. unfold _prepare_variables, prepare_variables_steps.
  pose proof (dict_comp_traverse resolve_partial
                (partial_variables (dict__ self)) w Hwf) as Eres.
  unfold resolve_partial in Eres at 1.
  unfold bind. rewrite Eres.
  destruct (traverse_values resolve_partial (partial_variables (dict__ self)) w)
    as [[resolved|e] w'] eqn:Hres; [|done].
  apply dict_comp_traverse, ODFacts.wf_update. unfold OD.wf.
  by rewrite (traverse_values_keys _ _ _ _ _ Hres).
Qed.

(** X4: when preparation succeeds, the prepared mapping has one entry for
    every partial variable, in their order, followed by one entry for every
    supplied name that is not a partial variable, in the order supplied:
    no variable is dropped and none is added. *)
Theorem prepare_variables_keys depth self supplied w out w' :
  OD.wf (partial_variables (dict__ self)) ->
  _prepare_variables depth self supplied w = (Ok out, w') ->
  OD.keys out
  = OD.keys (partial_variables (dict__ self))
    ++ first_occurrences_from (OD.keys (partial_variables (dict__ self)))
         (OD.keys supplied).
Proof.
  intros Hwf. rewrite prepare_as_steps by done.
  unfold prepare_variables_steps, bind.
  destruct (traverse_values resolve_partial (partial_variables (dict__ self)) w)
    as [[resolved|e] w1] eqn:Hres; [|done].
  intros Hfmt. apply traverse_values_keys in Hfmt. apply traverse_values_keys in Hres.
  by rewrite Hfmt, keys_update, Hres.
Qed.

(** X5: when the producer of a partial variable raises, preparation raises
    the same error, in the world as the producers called before it and the
    failing one left it, whatever is supplied, also a value for that very
    variable; no formatter is called. *)
Theorem prepare_variables_producer_error self pre k produce post w resolved w1 e w2 :
  OD.wf (partial_variables (dict__ self)) ->
  partial_variables (dict__ self) = pre ++ (k, PCallable produce) :: post ->
  traverse_values resolve_partial pre w = (Ok resolved, w1) ->
  produce w1 = (Err e, w2) ->
  forall depth supplied,
    _prepare_variables depth self supplied w = (Err e, w2).
Proof.
  intros Hwf Hpv Hpre Hfail depth supplied.
  rewrite prepare_as_steps by done. unfold prepare_variables_steps.
  rewrite Hpv. unfold bind at 1. rewrite traverse_values_app.
  unfold bind at 1. rewrite Hpre. simpl. unfold bind. by rewrite Hfail.
Qed.

(** X6: a template without partial variables prepares a mapping none of
    whose values has a formatter into that same mapping, leaving the world
    as it is. *)
Theorem prepare_variables_pass_through self supplied depth w :
  partial_variables (dict__ self) = [] ->
  OD.wf supplied ->
  (forall k v, (k, v) ∈ supplied ->
     forall t f, (t, f) ∈ formatters (dict__ self) -> isinstance v t = false) ->
  _prepare_variables depth self supplied w = (Ok supplied, w).
Proof.
  intros Hpv Hwf Hnone.
  rewrite prepare_as_steps by (rewrite Hpv; apply NoDup_nil_2).
  unfold prepare_variables_steps. rewrite Hpv. simpl. rewrite bind_ret_l.
  rewrite (update_fresh [] supplied) by done. simpl.
  rewrite (traverse_values_pure _ id).
  - do 2 f_equal. induction supplied as [|[k v] supplied IH]; [done|].
    simpl. f_equal. apply IH.
    + unfold OD.wf, OD.keys in *. csimpl in Hwf.
      by apply NoDup_cons in Hwf as [_ ?].
    + intros k' v' Hin. apply (Hnone k' v'). by right.
  - intros k v Hin w'.
    destruct (find_none_get_none (formatters (dict__ self)) v (Hnone k v Hin))
      as [Hget Hfind].
    destruct depth; simpl; by rewrite Hget, Hfind.
Qed.

(** X7: with the default registry, when the partial variables resolve and
    every value of the merged mapping is plain and nested no deeper than the
    calls allowed, preparation returns the merged mapping with every value
    rendered, and its only effects are those of the producers. *)
Theorem prepare_variables_default self supplied depth w resolved w1 :
  formatters (dict__ self) = PROMPT_DEFAULT_FORMATTERS ->
  OD.wf (partial_variables (dict__ self)) ->
  traverse_values resolve_partial (partial_variables (dict__ self)) w
    = (Ok resolved, w1) ->
  (forall k v, (k, v) ∈ OD.update resolved supplied ->
     plain v /\ height v <= depth) ->
  _prepare_variables depth self supplied w
  = (Ok (map (fun kv => (kv.1, render_default kv.2)) (OD.update resolved supplied)),
     w1).
Proof.
  intros Hfmt Hwf Hres Hplain.
  rewrite prepare_as_steps by done. unfold prepare_variables_steps, bind.
  rewrite Hres, Hfmt. apply traverse_values_pure.
  intros k v Hin w'. destruct (Hplain k v Hin) as [Hp Hh].
  rewrite (default_outcome depth v w' Hp).
  by destruct (decide (height v <= depth)).
Qed.
End more_preparation.

(** The entries of a given list, one by one. *)
Ltac each_entry Hin :=
  repeat (apply elem_of_cons in Hin as [Hin|Hin]; [simplify_eq|]);
  [.. | by apply elem_of_nil in Hin].

Lemma prepare_variables_keys_witness :
  OD.keys [("greeting", VStr "hi"); ("now", VInt 7); ("doc", VStr "text")]
  = OD.keys (partial_variables (dict__ Demo.T_partial))
    ++ first_occurrences_from (OD.keys (partial_variables (dict__ Demo.T_partial)))
         (OD.keys [("doc", VDocument "text" []); ("greeting", VStr "hi")]).
Proof.
  apply (prepare_variables_keys 2 Demo.T_partial
           [("doc", VDocument "text" []); ("greeting", VStr "hi")] Demo.w0 _
           {| Demo.clock := 8; Demo.dirs := []; Demo.files := [] |});
    [|reflexivity].
  unfold OD.wf. simpl. repeat (apply NoDup_cons; split; [list_not_in|]).
  apply NoDup_nil_2.
Defined.

Lemma prepare_variables_producer_error_witness :
  _prepare_variables 1 Demo.T_broken [("second", VStr "supplied")] Demo.w0
  = (Err (OSError "clock unavailable"),
     {| Demo.clock := 9; Demo.dirs := []; Demo.files := [] |}).
Proof.
  apply (prepare_variables_producer_error Demo.T_broken
           [("first", PCallable Demo.tick)] "second" Demo.broken
           [("third", PStr "3")] Demo.w0 [("first", VInt 7)]
           {| Demo.clock := 8; Demo.dirs := []; Demo.files := [] |});
    [|reflexivity..].
  unfold OD.wf. simpl. repeat (apply NoDup_cons; split; [list_not_in|]).
  apply NoDup_nil_2.
Defined.

Lemma prepare_variables_pass_through_witness :
  _prepare_variables 0 Demo.T_ab [("a", VStr "1"); ("b", VInt 2); ("c", VNone)]
    Demo.w0
  = (Ok [("a", VStr "1"); ("b", VInt 2); ("c", VNone)], Demo.w0).
Proof.
  apply (prepare_variables_pass_through Demo.T_ab); [reflexivity | |].
  - unfold OD.wf. simpl. repeat (apply NoDup_cons; split; [list_not_in|]).
    apply NoDup_nil_2.
  - intros k v Hin t f Hreg.
    each_entry Hin; each_entry Hreg; reflexivity.
Defined.

Lemma prepare_variables_default_witness :
  _prepare_variables 2 Demo.T_partial [("doc", Demo.nested)] Demo.w0
  = (Ok [("greeting", VStr "hello"); ("now", VInt 7);
         ("doc", VDict [("docs", VList [VStr "first"; VStr "second"]);
                        ("n", VInt 3)])],
     {| Demo.clock := 8; Demo.dirs := []; Demo.files := [] |}).
Proof.
  apply (prepare_variables_default Demo.T_partial [("doc", Demo.nested)] 2
           Demo.w0 [("greeting", VStr "hello"); ("now", VInt 7)]);
    [reflexivity | | reflexivity |].
  - unfold OD.wf. simpl. repeat (apply NoDup_cons; split; [list_not_in|]).
    apply NoDup_nil_2.
  - intros k v Hin. simpl in Hin. each_entry Hin.
    + split; [done | simpl; lia].
    + split; [done | simpl; lia].
    + split; [apply plain_nested | simpl; lia].
Defined.

(** ** More on validation and partial binding *)

Section more_partial.
Context {World : Type} `{!SetOrder}.
Implicit Types (h : store World) (self : loc) (values : fields World)
  (b : odict string (partial_variable World)) (T : BasePromptTemplate World).

Lemma validate_Err values e :
  validate_variable_names values = Err e -> exists msg, e = ValueError msg.
Proof.
  unfold validate_variable_names.
  repeat (case_bool_decide || destruct (OD.mem _ _)); intros [=]; by eexists.
Qed.

(** X8: the validator accepts exactly the values in which ["stop"] is
    neither an input nor a partial variable and no name is both; it returns
    them unchanged, and whatever it rejects it rejects with a
    [ValueError]. *)
Theorem validation_accepts_iff values :
  (forall values',
     validate_variable_names values = Ok values' <->
     values' = values
     /\ ("stop" ∉ input_variables values)
     /\ ("stop" ∉ OD.keys (partial_variables values))
     /\ (forall x, x ∈ input_variables values ->
           x ∉ OD.keys (partial_variables values)))
  /\ (forall e, validate_variable_names values = Err e ->
        exists msg, e = ValueError msg).
Proof. split; [intros values'; apply validate_Ok_iff | apply validate_Err]. Qed.

(** X9: every template that [partial] returns satisfies the construction
    invariants, whatever the template it was derived from: ["stop"] is not
    among its variables, no name is both an input and a partial variable,
    and no input variable occurs twice. When [partial] fails, it fails with
    a [ValueError]. *)
Theorem partial_result_valid h self T b :
  load h self = Some T ->
  (forall new h', partial self b h = (Ok new, h') ->
     exists T',
       load h' new = Some T'
       /\ validate_variable_names (dict__ T') = Ok (dict__ T')
       /\ NoDup (input_variables (dict__ T')))
  /\ (forall e h', partial self b h = (Err e, h') -> exists msg, e = ValueError msg).
Proof.
  intros Hload. apply load_Some in Hload as (d & Hself & Hd).
  rewrite (partial_run h self (type_ T) d (dict__ T) b Hself Hd).
  destruct (validate_variable_names (partial_values (dict__ T) b))
    as [values|err] eqn:Hvalid.
  - split; [|by intros ? ? [=]]. intros new h' [= <- <-].
    pose proof Hvalid as Hvalues. apply validate_Ok_iff in Hvalues as [-> _].
    exists {| type_ := type_ T; dict__ := partial_values (dict__ T) b |}.
    split; [apply load_allocated|]. split; [exact Hvalid|]. apply NoDup_set_iter.
  - split; [by intros ? ? [=]|]. intros e h' [= <- <-].
    by apply validate_Err in Hvalid.
Qed.

(** X10: binding in two steps gives the template that binding in one step
    gives: [partial] with [b1] and then, on the result, with [b2] returns a
    template with the same class, the same partial variables in the same
    order, the same set of input variables and the same other fields as
    [partial] with [b1] overlaid by [b2]. *)
Theorem partial_twice h self T b1 b2 :
  load h self = Some T ->
  validate_variable_names (dict__ T) = Ok (dict__ T) ->
  "stop" ∉ OD.keys b1 -> "stop" ∉ OD.keys b2 -> OD.wf b1 ->
  exists new1 h1 new2 h2 T2 new h' T',
    partial self b1 h = (Ok new1, h1)
    /\ partial new1 b2 h1 = (Ok new2, h2)
    /\ load h2 new2 = Some T2
    /\ partial self (OD.update b1 b2) h = (Ok new, h')
    /\ load h' new = Some T'
    /\ type_ T2 = type_ T'
    /\ partial_variables (dict__ T2) = partial_variables (dict__ T')
    /\ (forall x, x ∈ input_variables (dict__ T2) <-> x ∈ input_variables (dict__ T'))
    /\ formatters (dict__ T2) = formatters (dict__ T')
    /\ output_parser (dict__ T2) = output_parser (dict__ T')
    /\ own_fields (dict__ T2) = own_fields (dict__ T').
Proof.
  intros Hload Hvalid Hstop1 Hstop2 Hwf.
  set (T1 := {| type_ := type_ T; dict__ := partial_values (dict__ T) b1 |}).
  pose proof (partial_succeeds h self T b1 Hload Hvalid Hstop1) as Hrun1.
  set (h1 := h ++ [Dict (partial_values (dict__ T) b1);
                   Dict (partial_values (dict__ T) b1);
                   Instance (type_ T) (S (List.length h))]) in *.
  assert (Hload1 : load h1 (S (S (List.length h))) = Some T1)
    by apply load_allocated.
  assert (Hvalid1 : validate_variable_names (dict__ T1) = Ok (dict__ T1))
    by by apply partial_values_valid.
  pose proof (partial_succeeds h1 _ T1 b2 Hload1 Hvalid1 Hstop2) as Hrun2.
  assert (Hstop : "stop" ∉ OD.keys (OD.update b1 b2)).
  { rewrite ODFacts.elem_of_keys_update. tauto. }
  pose proof (partial_succeeds h self T _ Hload Hvalid Hstop) as Hrun.
  eexists _, _, _, _,
    {| type_ := type_ T1; dict__ := partial_values (dict__ T1) b2 |}, _, _,
    {| type_ := type_ T; dict__ := partial_values (dict__ T) (OD.update b1 b2) |}.
  split; [exact Hrun1|]. split; [exact Hrun2|]. split; [apply load_allocated|].
  split; [exact Hrun|]. split; [apply load_allocated|].
  split; [done|]. split; [simpl; by apply ODFacts.update_assoc|].
  split; [|done].
  intros x. subst T1. cbn [dict__]. rewrite !elem_of_partial_input_variables.
  rewrite ODFacts.elem_of_keys_update. tauto.
Qed.
End more_partial.

Lemma validation_accepts_iff_witness :
  @validate_variable_names _ Demo.ascending Demo.entries_partial
  = Ok Demo.entries_partial.
Proof.
  apply (proj1 (@validation_accepts_iff _ Demo.ascending Demo.entries_partial)).
  split; [done|]. split; [list_not_in|]. split; [list_not_in|].
  intros x Hin. each_entry Hin; list_not_in.
Defined.

Lemma partial_result_valid_witness :
  exists T',
    load (snd (@partial _ Demo.ascending 1 [("x", PStr "2")] Demo.h2)) 4 = Some T'
    /\ @validate_variable_names _ Demo.ascending (dict__ T') = Ok (dict__ T')
    /\ NoDup (input_variables (dict__ T')).
Proof.
  apply (proj1 (@partial_result_valid _ Demo.ascending Demo.h2 1
                  {| type_ := Demo.JoinTemplate; dict__ := Demo.entries_overlap |}
                  [("x", PStr "2")] eq_refl)).
  vm_compute. reflexivity.
Defined.

Lemma partial_twice_witness :
  exists new1 h1 new2 h2 T2 new h' T',
    @partial _ Demo.ascending 1 [("a", PStr "1")] Demo.h0 = (Ok new1, h1)
    /\ @partial _ Demo.ascending new1 [("b", PStr "2"); ("a", PStr "3")] h1
       = (Ok new2, h2)
    /\ load h2 new2 = Some T2
    /\ @partial _ Demo.ascending 1
         (OD.update [("a", PStr "1")] [("b", PStr "2"); ("a", PStr "3")]) Demo.h0
       = (Ok new, h')
    /\ load h' new = Some T'
    /\ partial_variables (dict__ T2) = partial_variables (dict__ T').
Proof.
  destruct (@partial_twice _ Demo.ascending Demo.h0 1 Demo.T_ab
              [("a", PStr "1")] [("b", PStr "2"); ("a", PStr "3")])
    as (new1 & h1 & new2 & h2 & T2 & new & h' & T' & H1 & H2 & H3 & H4 & H5
        & _ & H6 & _);
    [reflexivity | vm_compute; reflexivity | list_not_in | list_not_in | |].
  - unfold OD.wf. simpl. apply NoDup_singleton.
  - by exists new1, h1, new2, h2, T2, new, h', T'.
Defined.

(** ** The dictionary representation and saving *)

Section more_saving.
Context {World : Type} `{!OS World} `{!Serializable World}.
Implicit Types (self : BasePromptTemplate World) (file_path : string) (w : World).

Lemma get_del {K V} `{EqDecision K} (k k' : K) (d : odict K V) :
  OD.wf d ->
  OD.get k (OD.del k' d) = if decide (k = k') then None else OD.get k d.
Proof.
  unfold OD.wf, OD.keys. induction d as [|[k1 v1] d IH]; intros Hwf.
  - by destruct (decide (k = k')).
  - csimpl in Hwf. apply NoDup_cons in Hwf as [Hk1 Hwf]. simpl.
    destruct (decide (k' = k1)) as [->|Hne]; simpl.
    + destruct (decide (k = k1)) as [->|]; [|done]. by apply ODFacts.get_None.
    + rewrite IH by done.
      destruct (decide (k = k1)) as [->|]; [|done]. by rewrite decide_False.
Qed.

(** X11: [dict] raises what [super().dict()] raises, before
    [_prompt_type] is read, and raises [KeyError] when the dictionary that
    [super().dict()] returns has no entry ["formatters"]. When that
    dictionary has the entry, [dict] raises the error of [_prompt_type] if
    the class keeps the inherited one, and otherwise returns a dictionary
    that has no entry ["formatters"], has the entry ["_type"] with the
    prompt type of the class, and has every other entry as [super().dict()]
    gives it. *)
Theorem dict_representation self :
  (forall e, super_dict self = Err e -> dict self = Err e)
  /\ (forall d0, super_dict self = Ok d0 ->
        ("formatters" ∉ OD.keys d0) ->
        dict self = Err (KeyError "formatters"))
  /\ (forall d0, super_dict self = Ok d0 ->
        "formatters" ∈ OD.keys d0 ->
        (forall e, _prompt_type self = Err e -> dict self = Err e)
        /\ (forall kind, _prompt_type self = Ok kind ->
              OD.wf d0 ->
              exists prompt_dict,
                dict self = Ok prompt_dict
                /\ OD.get "formatters" prompt_dict = None
                /\ OD.get "_type" prompt_dict = Some (FType kind)
                /\ (forall k, k <> "formatters" -> k <> "_type" ->
                      OD.get k prompt_dict = OD.get k d0))).
Proof.
  split; [|split].
  - intros e He. apply dict_Err. by left.
  - intros d0 Hsuper Hout. apply dict_Err. right. left. by exists d0.
  - intros d0 Hsuper Hin. split.
    + intros e He. apply dict_Err. right. right. by exists d0.
    + intros kind Hkind Hwf. eexists. split; [by apply dict_Ok|].
      split; [|split].
      * rewrite ODFacts.get_set, decide_False by done.
        rewrite get_del by done. by rewrite decide_True.
      * by rewrite ODFacts.get_set, decide_True.
      * intros k Hf Ht. rewrite ODFacts.get_set, decide_False by done.
        rewrite get_del by done. by rewrite decide_False.
Qed.

(** X12: [save] succeeds exactly when the template has no partial
    variables, the parent directory is created, [dict] returns the
    dictionary, and either the suffix is [.json] and the JSON writer
    succeeds on the path and that dictionary, or the suffix is [.yaml] and
    the YAML writer does; the world it leaves is the one the writer
    leaves. *)
Theorem save_succeeds_iff self file_path w w'' :
  save self file_path w = (Ok tt, w'') <->
  partial_variables (dict__ self) = []
  /\ exists w' prompt_dict,
       mkdir_parents (path_parent file_path) w = (Ok tt, w')
       /\ dict self = Ok prompt_dict
       /\ ((path_suffix file_path = ".json"
            /\ write_json file_path prompt_dict w' = (Ok tt, w''))
           \/ (path_suffix file_path = ".yaml"
               /\ write_yaml file_path prompt_dict w' = (Ok tt, w''))).
Proof.
  unfold save. case_bool_decide as Hpv.
  { split; [done | by intros [? _]]. }
  unfold bind, lift.
  destruct (mkdir_parents (path_parent file_path) w) as [[[]|e] w'] eqn:Hmk.
  2: { split; [done|]. by intros (_ & ? & ? & [=] & _). }
  destruct (dict self) as [prompt_dict|e] eqn:Hdict.
  2: { split; [done|]. by intros (_ & ? & ? & _ & [=] & _). }
  destruct (decide (path_suffix file_path = ".json")) as [Hjson|Hjson].
  - split.
    + intros Hrun. split; [done|]. exists w', prompt_dict.
      split; [done|]. split; [done|]. by left.
    + intros (_ & w1 & d1 & [= <-] & [= <-] & [[_ Hrun]|[Hyaml _]]); [done|].
      congruence.
  - destruct (decide (path_suffix file_path = ".yaml")) as [Hyaml|Hyaml].
    + split.
      * intros Hrun. split; [done|]. exists w', prompt_dict.
        split; [done|]. split; [done|]. by right.
      * intros (_ & w1 & d1 & [= <-] & [= <-] & [[? _]|[_ Hrun]]); done.
    + split; [done|].
      intros (_ & w1 & d1 & _ & _ & [[? _]|[? _]]); done.
Qed.
End more_saving.

(** The template of the docstring, of a class that defines [_prompt_type]:
    its dictionary; the same fields with an output parser whose class
    defines no [_type]; and a serialisation that leaves out the
    formatters. *)
Lemma dict_representation_witness :
  (exists prompt_dict,
     dict Demo.T_page = Ok prompt_dict
     /\ OD.get "formatters" prompt_dict = None
     /\ OD.get "_type" prompt_dict = Some (FType "join")
     /\ OD.get "template" prompt_dict
        = Some (FValue (VStr "Page {page}: {page_content}")))
  /\ dict Demo.T_untyped = Err NotImplementedError
  /\ @dict _ Demo.bare_dict Demo.T_page = Err (KeyError "formatters").
Proof.
  split; [|split].
  - edestruct (proj2 (proj2 (dict_representation Demo.T_page))) as [_ Hok];
      [reflexivity | simpl; by left |].
    destruct (Hok "join" eq_refl) as (prompt_dict & Hdict & Hfmt & Htype & Hother).
    { unfold OD.wf. simpl.
      repeat (apply NoDup_cons; split; [list_not_in|]). apply NoDup_nil_2. }
    exists prompt_dict. split; [done|]. split; [done|]. split; [done|].
    by rewrite Hother.
  - by apply (proj1 (dict_representation Demo.T_untyped)).
  - eapply (proj1 (proj2 (@dict_representation _ Demo.bare_dict Demo.T_page)));
      [reflexivity | simpl; list_not_in].
Defined.

Lemma save_succeeds_iff_witness :
  save Demo.T_page "prompts/page.yaml" Demo.w0
  = (Ok tt, {| Demo.clock := 7; Demo.dirs := ["prompts"];
               Demo.files := [("prompts/page.yaml", "yaml")] |}).
Proof.
  apply (proj2 (save_succeeds_iff Demo.T_page "prompts/page.yaml" Demo.w0 _)).
  split; [reflexivity|]. eexists _, _. split; [reflexivity|].
  split; [reflexivity|]. right. split; reflexivity.
Defined.

(** ** Partial binding together with preparation, saving and documents *)

Section partial_composed.
Context {World : Type} `{!SetOrder}.
Implicit Types (h : store World) (self : loc)
  (b : odict string (partial_variable World)) (T : BasePromptTemplate World).

Lemma elem_of_first_occurrences_from seen names x :
  x ∈ first_occurrences_from seen names <-> x ∈ names /\ x ∉ seen.
Proof.
  revert seen. induction names as [|y names IH]; intros seen; simpl.
  - split; [intros Hin; by apply elem_of_nil in Hin | intros [Hin _]].
    by apply elem_of_nil in Hin.
  - destruct (decide (y ∈ seen)) as [Hy|Hy].
    + rewrite IH, elem_of_cons. split; [tauto|].
      intros [[->|?] ?]; [done | tauto].
    + rewrite !elem_of_cons, IH, elem_of_app, list_elem_of_singleton.
      split.
      * intros [->|[? ?]]; [tauto|]. split; [tauto|]. tauto.
      * intros [[->|?] ?]; [tauto|].
        destruct (decide (x = y)); [tauto|]. right. tauto.
Qed.

(** The call [format_document] makes when no input variable is missing. *)
Lemma format_document_calls_format (doc : Document) T :
  (forall name, name ∈ input_variables (dict__ T) ->
     is_Some (OD.get name
                (OD.update [("page_content", VStr (page_content doc))]
                   (metadata doc)))) ->
  exists document_info,
    OD.keys document_info = first_occurrences (input_variables (dict__ T))
    /\ (forall k, k ∈ input_variables (dict__ T) ->
          OD.get k document_info
          = OD.get k (OD.update [("page_content", VStr (page_content doc))]
                        (metadata doc)))
    /\ forall w, format_document doc T w = format T document_info w.
Proof.
  intros Hall.
  destruct (select_entries (World := World)
              (OD.update [("page_content", VStr (page_content doc))] (metadata doc))
              (input_variables (dict__ T)) [])
    as (out & Hrun & Hkeys & Hget); [exact Hall|].
  exists out. split; [exact Hkeys|]. split.
  - intros k Hk. rewrite Hget. by rewrite decide_True.
  - intros w. unfold format_document. rewrite decide_False.
    + unfold bind, dict_comp. by rewrite Hrun.
    + intros Hpos. apply size_pos_elem_of in Hpos as [y Hy].
      apply elem_of_difference in Hy as [Hy Hy'].
      rewrite elem_of_set_of in Hy, Hy'. apply ODFacts.get_None in Hy'.
      destruct (Hall y Hy) as [v Hv]. congruence.
Qed.

(** X13: binding a producer with [partial] does not call it; the producer
    is called at every preparation, after the producers of the partial
    variables the template already had, and its value is formatted like a
    supplied one. *)
Theorem partial_producer_deferred h self T x produce rest depth :
  load h self = Some T ->
  validate_variable_names (dict__ T) = Ok (dict__ T) ->
  OD.wf (partial_variables (dict__ T)) ->
  x ∈ input_variables (dict__ T) ->
  exists new h' T',
    partial self [(x, PCallable produce)] h = (Ok new, h')
    /\ load h' new = Some T'
    /\ forall w,
         _prepare_variables depth T' rest w
         = (resolved <- traverse_values resolve_partial
                          (partial_variables (dict__ T)) ;;
            v <- produce ;;
            traverse_values (_format_value depth (formatters (dict__ T)))
              (OD.update (resolved ++ [(x, v)]) rest)) w.
Proof.
  intros Hload Hvalid Hwf Hx.
  pose proof Hvalid as Hvalid'.
  apply validate_Ok_iff in Hvalid' as (_ & Hiv & _ & Hdisj).
  assert (Hstop : "stop" ∉ OD.keys [(x, PCallable produce)]).
  { unfold OD.keys. simpl. rewrite list_elem_of_singleton. by intros <-. }
  eexists (S (S (List.length h))), _,
    {| type_ := type_ T;
       dict__ := partial_values (dict__ T) [(x, PCallable produce)] |}.
  split; [by apply partial_succeeds|].
  split; [apply load_allocated|].
  intros w.
  assert (Hpv : partial_variables (partial_values (dict__ T) [(x, PCallable produce)])
                = partial_variables (dict__ T) ++ [(x, PCallable produce)]).
  { simpl. apply ODFacts.set_fresh. by apply Hdisj. }
  rewrite prepare_as_steps.
  - unfold prepare_variables_steps. cbn [dict__]. rewrite Hpv.
    unfold bind at 1. rewrite traverse_values_app. unfold bind.
    destruct (traverse_values resolve_partial (partial_variables (dict__ T)) w)
      as [[resolved|e] w1]; [|done].
    simpl. unfold bind. destruct (produce w1) as [[v|e] w2]; done.
  - cbn [dict__]. rewrite Hpv. unfold OD.wf. rewrite keys_app.
    apply NoDup_app. split; [done|]. split.
    + intros y Hy Hy'. apply list_elem_of_singleton in Hy' as ->.
      by apply (Hdisj x).
    + apply NoDup_singleton.
Qed.

(** X14: a template that [partial] returned for at least one binding cannot
    be saved: [save] raises, whatever the path, and leaves the world as it
    is. *)
Theorem partial_result_not_saved `{!OS World} `{!Serializable World}
    h self T b new h' :
  load h self = Some T ->
  b <> [] ->
  partial self b h = (Ok new, h') ->
  exists T',
    load h' new = Some T'
    /\ forall file_path w,
         save T' file_path w
         = (Err (ValueError [Lit "Cannot save prompt with partial variables."]), w).
Proof.
  intros Hload Hb Hrun. apply load_Some in Hload as (d & Hself & Hd).
  rewrite (partial_run h self (type_ T) d (dict__ T) b Hself Hd) in Hrun.
  destruct (validate_variable_names (partial_values (dict__ T) b))
    as [values|err] eqn:Hvalid; [|done].
  injection Hrun as <- <-. apply validate_Ok_iff in Hvalid as [-> _].
  exists {| type_ := type_ T; dict__ := partial_values (dict__ T) b |}.
  split; [apply load_allocated|].
  intros file_path w. unfold save. rewrite bool_decide_eq_true_2; [done|].
  cbn [dict__ partial_values set_partial_variables partial_variables].
  intros Hnil. destruct b as [|[k v] b]; [done|].
  assert (Hin : k ∈ OD.keys (OD.update (partial_variables (dict__ T)) ((k, v) :: b))).
  { apply ODFacts.elem_of_keys_update. right. by left. }
  rewrite Hnil in Hin. by apply elem_of_nil in Hin.
Qed.

(** X15: [format_document] asks the document only for the input variables
    that are left: after [partial] has bound some names, a document that has
    the remaining ones is formatted, with exactly the remaining names passed
    to [format], each with the value the document has for it. *)
Theorem format_document_after_partial h self T b (doc : Document) :
  load h self = Some T ->
  validate_variable_names (dict__ T) = Ok (dict__ T) ->
  "stop" ∉ OD.keys b ->
  (forall name, name ∈ input_variables (dict__ T) -> name ∉ OD.keys b ->
     is_Some (OD.get name
                (OD.update [("page_content", VStr (page_content doc))]
                   (metadata doc)))) ->
  exists new h' T' document_info,
    partial self b h = (Ok new, h')
    /\ load h' new = Some T'
    /\ (forall k, k ∈ OD.keys document_info <->
          k ∈ input_variables (dict__ T) /\ k ∉ OD.keys b)
    /\ (forall k, k ∈ OD.keys document_info ->
          OD.get k document_info
          = OD.get k (OD.update [("page_content", VStr (page_content doc))]
                        (metadata doc)))
    /\ forall w, format_document doc T' w = format T' document_info w.
Proof.
  intros Hload Hvalid Hstop Hhas.
  set (T' := {| type_ := type_ T; dict__ := partial_values (dict__ T) b |}).
  destruct (format_document_calls_format doc T')
    as (document_info & Hkeys & Hget & Hrun).
  { intros name Hin. apply elem_of_partial_input_variables in Hin as [Hin Hnb].
    by apply Hhas. }
  assert (Hmem : forall k, k ∈ OD.keys document_info <->
                   k ∈ input_variables (dict__ T) /\ k ∉ OD.keys b).
  { intros k. rewrite Hkeys. unfold first_occurrences.
    rewrite elem_of_first_occurrences_from.
    subst T'. cbn [dict__]. rewrite elem_of_partial_input_variables.
    split; [tauto|]. intros ?. split; [done|]. apply not_elem_of_nil. }
  eexists (S (S (List.length h))), _, T', document_info.
  split; [by apply partial_succeeds|]. split; [apply load_allocated|].
  split; [exact Hmem|]. split; [|exact Hrun].
  intros k Hk. apply Hget. subst T'. cbn [dict__].
  apply elem_of_partial_input_variables. by apply Hmem.
Qed.
End partial_composed.

Lemma partial_producer_deferred_witness :
  (exists new h' T',
     @partial _ Demo.ascending 1 [("who", PCallable Demo.tick)] Demo.h1
       = (Ok new, h')
     /\ load h' new = Some T'
     /\ _prepare_variables 1 T' [("doc", VDocument "text" [])] Demo.w0
        = (resolved <- traverse_values resolve_partial
                         (partial_variables (dict__ Demo.T_partial)) ;;
           v <- Demo.tick ;;
           traverse_values
             (_format_value 1 (formatters (dict__ Demo.T_partial)))
             (OD.update (resolved ++ [("who", v)]) [("doc", VDocument "text" [])]))
            Demo.w0)
  /\ (resolved <- traverse_values resolve_partial
                    (partial_variables (dict__ Demo.T_partial)) ;;
      v <- Demo.tick ;;
      traverse_values
        (_format_value 1 (formatters (dict__ Demo.T_partial)))
        (OD.update (resolved ++ [("who", v)]) [("doc", VDocument "text" [])]))
       Demo.w0
     = (Ok [("greeting", VStr "hello"); ("now", VInt 7); ("who", VInt 8);
            ("doc", VStr "text")],
        {| Demo.clock := 9; Demo.dirs := []; Demo.files := [] |}).
Proof.
  split; [|reflexivity].
  destruct (@partial_producer_deferred _ Demo.ascending Demo.h1 1 Demo.T_partial
              "who" Demo.tick [("doc", VDocument "text" [])] 1)
    as (new & h' & T' & Hrun & Hload & Hprep);
    [reflexivity | vm_compute; reflexivity | | right; by left |].
  - unfold OD.wf. simpl. repeat (apply NoDup_cons; split; [list_not_in|]).
    apply NoDup_nil_2.
  - exists new, h', T'. split; [exact Hrun|]. split; [exact Hload | apply Hprep].
Defined.

Lemma partial_result_not_saved_witness :
  exists T',
    load (snd (@partial _ Demo.ascending 1 [("c", PStr "foo")] Demo.h0)) 4 = Some T'
    /\ save T' "prompts/out.json" Demo.w0
       = (Err (ValueError [Lit "Cannot save prompt with partial variables."]),
          Demo.w0).
Proof.
  destruct (@partial_result_not_saved _ Demo.ascending _ _ Demo.h0 1 Demo.T_ab
              [("c", PStr "foo")] 4
              (snd (@partial _ Demo.ascending 1 [("c", PStr "foo")] Demo.h0)))
    as (T' & Hload & Hsave); [reflexivity | discriminate | vm_compute; reflexivity |].
  exists T'. split; [exact Hload | apply Hsave].
Defined.

Lemma format_document_after_partial_witness :
  exists new h' T' document_info,
    @partial _ Demo.ascending 1 [("author", PStr "me")] Demo.h3 = (Ok new, h')
    /\ load h' new = Some T'
    /\ (forall k, k ∈ OD.keys document_info <->
          k ∈ ["page_content"; "author"; "page"] /\ k ∉ ["author"])
    /\ @format_document _ Demo.ascending Demo.joke T' Demo.w0
       = format T' document_info Demo.w0.
Proof.
  destruct (@format_document_after_partial _ Demo.ascending Demo.h3 1
              Demo.T_author [("author", PStr "me")] Demo.joke)
    as (new & h' & T' & document_info & Hrun & Hload & Hkeys & _ & Hfmt);
    [reflexivity | vm_compute; reflexivity | list_not_in | |].
  - intros name Hin Hnb. each_entry Hin.
    + by eexists.
    + exfalso. apply Hnb. by left.
    + by eexists.
  - exists new, h', T', document_info.
    split; [exact Hrun|]. split; [exact Hload|]. split; [exact Hkeys | apply Hfmt].
Defined.
